(** * Forage_Projects: combat resource components and the console inventory

    A shallow embedding of [Headerfile.h].  The file holds two translation
    units glued together:

    - [game_combat_system.h] (lines 1-172) declares the combat classes.  It
      has no method bodies: [consumeMana] is therefore modelled from the
      specification's description of it (module [Combat]).
    - the console inventory program (lines 172-413) comes with its bodies,
      and module [InventoryApp] follows them statement by statement.

    The other classes of the header are declarations without behaviour and
    are not modelled.

    Definitions come first, the theorems about them afterwards. *)

From Stdlib Require Import ZArith String Ascii Bool Lia.
From Stdlib Require Import Floats.SpecFloat.
From stdpp Require Import base option list.

(* ===================================================================== *)
(** * Part I: definitions                                                 *)
(* ===================================================================== *)

(** ** The C++ [int]: 32 bits, two's complement *)

Module Int32.
Local Open Scope Z_scope.

Definition int_min : Z := - 2 ^ 31.
Definition int_max : Z := 2 ^ 31 - 1.

(** [in_int z]: [z] is a value of type [int]. *)
Definition in_int (z : Z) : bool := (int_min <=? z) && (z <=? int_max).

(** The value an out-of-range result takes on two's-complement hardware.
    (For the standard, signed overflow is undefined; the wrap-around is
    what the generated [add]/[sub] instructions do.) *)
Definition wrap (z : Z) : Z := (z + 2 ^ 31) mod 2 ^ 32 - 2 ^ 31.

Definition int_add (a b : Z) : Z := wrap (a + b).
Definition int_sub (a b : Z) : Z := wrap (a - b).

End Int32.

(** ** The C++ [float]: IEEE 754 binary32 *)

Module Float32.

Definition prec : Z := 24%Z.
Definition emax : Z := 128%Z.

Definition float : Type := spec_float.

Definition zero : float := S754_zero false.

(** Conversion [int -> float] (round to nearest, ties to even). *)
Definition of_int (z : Z) : float := binary_normalize prec emax z 0%Z false.

Definition mul (x y : float) : float := SFmul prec emax x y.
Definition add (x y : float) : float := SFadd prec emax x y.

(** [x < y] and [x <= y]; both are [false] when an operand is a NaN. *)
Definition ltb (x y : float) : bool := SFltb x y.
Definition leb (x y : float) : bool := SFleb x y.

Definition is_nan (x : float) : bool :=
  match x with S754_nan => true | _ => false end.

End Float32.

(** ** The mana component ([game_combat_system.h]) *)

Module Combat.
Local Open Scope Z_scope.

(** The members and arguments are [int]s in the header.  The bodies being
    absent, the operation is stated over [Z], as the spec words it; every
    [int] is such a number. *)

(** [class ArcaneMana : public ManaComponent] and
    [class RageEnergy : public ManaComponent]. *)
Inductive ManaKind : Type := ArcaneMana | RageEnergy.

(** [class ManaComponent { int currentMana; int maxMana; ... }]. *)
Record ManaComponent : Type := mkMana {
  manaKind : ManaKind;
  currentMana : Z;
  maxMana : Z
}.

Definition setMana (m : ManaComponent) (v : Z) : ManaComponent :=
  {| manaKind := manaKind m; currentMana := v; maxMana := maxMana m |}.

(** Modelled from the spec: the bodies of [ArcaneMana::consumeMana] and
    [RageEnergy::consumeMana] are missing; the spec gives both overriders
    one contract.  "succeeds (mutates pool downward, returns true) only if
    amount <= currentMana; otherwise leaves state unchanged and returns
    false."  The result pairs the returned [bool] with the component after
    the call. *)
Definition consumeMana (m : ManaComponent) (amount : Z) : bool * ManaComponent :=
  if amount <=? currentMana m
  then (true, setMana m (currentMana m - amount))
  else (false, m).

End Combat.

(** ** The console inventory program *)

Module InventoryApp.
Import Int32.
Local Open Scope Z_scope.

(** *** [class Item] *)

Record Item : Type := mkItem {
  name : string;
  quantity : Z;
  price : Float32.float
}.

Definition get_name (item : Item) : string := name item.
Definition get_quantity (item : Item) : Z := quantity item.
Definition get_price (item : Item) : Float32.float := price item.

(** [void set_quantity(int new_quantity) { quantity = new_quantity; }] *)
Definition set_quantity (item : Item) (new_quantity : Z) : Item :=
  {| name := name item; quantity := new_quantity; price := price item |}.

(** [bool is_match(const std::string &other_name) const] *)
Definition is_match (item : Item) (other_name : string) : bool :=
  String.eqb (name item) other_name.

(** *** [class Inventory]: the data members *)

Record Inventory : Type := mkInventory {
  items : list Item;
  total_money : Float32.float
}.

(** [Inventory() : total_money{0} {}] *)
Definition Inventory_new : Inventory :=
  {| items := []; total_money := Float32.zero |}.

(** [std::find_if(first, last, pred)]: the position of the first element that
    satisfies [pred] together with that element, [None] for [last]. *)
Definition find_if {A : Type} (pred : A -> bool) (l : list A) : option (nat * A) :=
  list_find (fun x => Is_true (pred x)) l.

(** *** The console

    [std::cin] belongs to the C++ library, not to the repository: the
    program is written against the five stream operations it calls, and
    every theorem holds for every implementation of them. *)

Class IStream (S : Type) : Type := {
  (** [cin.ignore(numeric_limits<streamsize>::max(), '\n')] *)
  ignore_line : S -> S;
  (** [std::getline(cin, s)]: the line read. *)
  getline : S -> string * S;
  (** [cin >> i] for an [int]: [None] when the extraction fails. *)
  extract_int : S -> option Z * S;
  (** [cin >> f] for a [float]: [None] when the extraction fails. *)
  extract_float : S -> option Float32.float * S;
  (** [cin.clear()] *)
  clear : S -> S
}.

(** What [std::cout << x] appends.  String literals keep the escape
    sequences of the source as they are written there. *)
Inductive output : Type :=
| OutStr (s : string)
| OutInt (z : Z)
| OutFloat (f : Float32.float)
| OutEndl.

Record console (S : Type) : Type := mkConsole {
  cin : S;
  cout : list output
}.
Arguments mkConsole {S} _ _.
Arguments cin {S} _.
Arguments cout {S} _.

(** A member function that talks to the console: it starts from a console
    state and, when it returns, yields its result and the console state it
    leaves.  [None]: the call yields nothing, because the loop it runs did
    not finish within the allotted number of iterations (on an exhausted
    input the loops of the program spin forever), or because it dereferences
    a past-the-end iterator. *)
Definition io (S A : Type) : Type := console S -> option (A * console S).

Global Instance io_ret {S : Type} : MRet (io S) :=
  fun A a c => Some (a, c).

Global Instance io_bind {S : Type} : MBind (io S) :=
  fun A B f m c =>
    match m c with
    | Some (a, c') => f a c'
    | None => None
    end.

Section Program.
Context {S : Type} `{IStream S}.

Definition cin_ignore : io S unit :=
  fun c => Some (tt, mkConsole (ignore_line (cin c)) (cout c)).

Definition cin_clear : io S unit :=
  fun c => Some (tt, mkConsole (clear (cin c)) (cout c)).

Definition cin_getline : io S string :=
  fun c => let '(s, i) := getline (cin c) in Some (s, mkConsole i (cout c)).

(** [cin >> quantity]: the extraction also fails when the number read does
    not fit an [int]. *)
Definition cin_int : io S (option Z) :=
  fun c =>
    let '(r, i) := extract_int (cin c) in
    Some (match r with
          | Some z => if in_int z then Some z else None
          | None => None
          end, mkConsole i (cout c)).

Definition cin_float : io S (option Float32.float) :=
  fun c => let '(r, i) := extract_float (cin c) in Some (r, mkConsole i (cout c)).

Definition print (o : output) : io S unit :=
  fun c => Some (tt, mkConsole (cin c) (cout c ++ [o])).

(** The call that yields nothing. *)
Definition no_result {A : Type} : io S A := fun _ => None.

(** The loop of lines 262-266, and again of lines 330-334:
<<
    while (!(std::cin >> quantity) || quantity <= 0) {
        std::cout << "Invalid quantity. Please enter a positive number: ";
        std::cin.clear();
        std::cin.ignore(std::numeric_limits<std::streamsize>::max(), '\n');
    }
>>
    [fuel] bounds the number of evaluations of the condition. *)
Fixpoint read_quantity (fuel : nat) : io S Z :=
  match fuel with
  | O => no_result
  | Datatypes.S fuel' =>
      r ← cin_int;
      match r with
      | Some quantity =>
          if quantity <=? 0 then
            print (OutStr "Invalid quantity. Please enter a positive number: ");;
            cin_clear;;
            cin_ignore;;
            read_quantity fuel'
          else mret quantity
      | None =>
          print (OutStr "Invalid quantity. Please enter a positive number: ");;
          cin_clear;;
          cin_ignore;;
          read_quantity fuel'
      end
  end.

(** The loop of lines 269-273:
<<
    while (!(std::cin >> price) || price < 0) {
        std::cout << "Invalid price. Please enter a non-negative number: ";
        std::cin.clear();
        std::cin.ignore(std::numeric_limits<std::streamsize>::max(), '\n');
    }
>>
    The [0] of [price < 0] is converted to [float]. *)
Fixpoint read_price (fuel : nat) : io S Float32.float :=
  match fuel with
  | O => no_result
  | Datatypes.S fuel' =>
      r ← cin_float;
      match r with
      | Some price =>
          if Float32.ltb price (Float32.of_int 0) then
            print (OutStr "Invalid price. Please enter a non-negative number: ");;
            cin_clear;;
            cin_ignore;;
            read_price fuel'
          else mret price
      | None =>
          print (OutStr "Invalid price. Please enter a non-negative number: ");;
          cin_clear;;
          cin_ignore;;
          read_price fuel'
      end
  end.

(** [void Inventory::add_item()] (lines 251-295). *)
Definition add_item (fuel : nat) (inv : Inventory) : io S Inventory :=
  cin_ignore;;
  print (OutStr "\nEnter item name: ");;
  name ← cin_getline;
  print (OutStr "Enter quantity: ");;
  quantity ← read_quantity fuel;
  print (OutStr "Enter price: ");;
  price ← read_price fuel;
  match find_if (fun item_ptr => is_match item_ptr name) (items inv) with
  | Some (it, item) =>
      let items' :=
        <[it := set_quantity item (int_add (get_quantity item) quantity)]> (items inv) in
      print (OutStr "\nItem '");; print (OutStr name);;
      print (OutStr "' already exists. Quantity updated.");; print OutEndl;;
      mret {| items := items'; total_money := total_money inv |}
  | None =>
      let items' := items inv ++ [mkItem name quantity price] in
      print (OutStr "\nNew item '");; print (OutStr name);;
      print (OutStr "' added to inventory.");; print OutEndl;;
      mret {| items := items'; total_money := total_money inv |}
  end.

(** [void Inventory::remove_item(iterator item_it)] (lines 325-357).
    [item_it] is the position the iterator designates; dereferencing an
    iterator that designates no element yields nothing. *)
Definition remove_item (fuel : nat) (item_it : nat) (inv : Inventory) : io S Inventory :=
  match items inv !! item_it with
  | None => no_result
  | Some item =>
      print (OutStr "\nEnter number of items to sell: ");;
      input_quantity ← read_quantity fuel;
      let current_quantity := get_quantity item in
      if input_quantity <=? current_quantity then
        let price := get_price item in
        let money_earned := Float32.mul price (Float32.of_int input_quantity) in
        let item' := set_quantity item (int_sub current_quantity input_quantity) in
        print (OutStr "\nItems sold.");;
        print (OutStr "\nMoney received: ");; print (OutFloat money_earned);;
        let total_money' := Float32.add (total_money inv) money_earned in
        if get_quantity item' =? 0 then
          print (OutStr "\nItem '");; print (OutStr (get_name item'));;
          print (OutStr "' quantity reached zero. Removing completely.");;
          print OutEndl;;
          mret {| items := delete item_it (items inv); total_money := total_money' |}
        else
          mret {| items := <[item_it := item']> (items inv); total_money := total_money' |}
      else
        print (OutStr "\nCannot sell more items than you have (Current: ");;
        print (OutInt current_quantity);; print (OutStr ").");; print OutEndl;;
        mret inv
  end.

(** [void Inventory::sell_item()] (lines 298-322). *)
Definition sell_item (fuel : nat) (inv : Inventory) : io S Inventory :=
  match items inv with
  | [] =>
      print (OutStr "\nInventory is empty. Nothing to sell.");; print OutEndl;;
      mret inv
  | _ :: _ =>
      cin_ignore;;
      print (OutStr "\nEnter item name to sell: ");;
      item_to_check ← cin_getline;
      match find_if (fun item_ptr => is_match item_ptr item_to_check) (items inv) with
      | Some (it, _) => remove_item fuel it inv
      | None =>
          print (OutStr "\nThis item is not in your Inventory.");; print OutEndl;;
          mret inv
      end
  end.

(** *** The two halves of [add_item]

    [add_item] first talks to the user (lines 252-273) and then updates the
    inventory (lines 280-294).  The two halves are named here so that the
    theorems can speak of "the entered name, quantity and price";
    [add_item_splits] shows that [add_item] is their composition. *)

(** Lines 252-273: what the user enters. *)
Definition add_item_prompts (fuel : nat) : io S (string * Z * Float32.float) :=
  cin_ignore;;
  print (OutStr "\nEnter item name: ");;
  name ← cin_getline;
  print (OutStr "Enter quantity: ");;
  quantity ← read_quantity fuel;
  print (OutStr "Enter price: ");;
  price ← read_price fuel;
  mret (name, quantity, price).

(** Lines 325-334: the number of units the user asks to sell. *)
Definition remove_item_prompt (fuel : nat) : io S Z :=
  print (OutStr "\nEnter number of items to sell: ");;
  read_quantity fuel.

End Program.

(** Lines 280-294: the update of the inventory, without the messages. *)
Definition store_item (name : string) (quantity : Z) (price : Float32.float)
    (inv : Inventory) : Inventory :=
  match find_if (fun item_ptr => is_match item_ptr name) (items inv) with
  | Some (it, item) =>
      {| items := <[it := set_quantity item (int_add (get_quantity item) quantity)]> (items inv);
         total_money := total_money inv |}
  | None =>
      {| items := items inv ++ [mkItem name quantity price];
         total_money := total_money inv |}
  end.

(** Lines 286-294: the message [add_item] ends with. *)
Definition store_item_report (name : string) (inv : Inventory) : list output :=
  match find_if (fun item_ptr => is_match item_ptr name) (items inv) with
  | Some _ =>
      [OutStr "\nItem '"; OutStr name; OutStr "' already exists. Quantity updated."; OutEndl]
  | None =>
      [OutStr "\nNew item '"; OutStr name; OutStr "' added to inventory."; OutEndl]
  end.

(** Lines 336-356: the update [remove_item] makes once [input_quantity] is
    read, without the messages. *)
Definition sell_units (item_it : nat) (item : Item) (input_quantity : Z)
    (inv : Inventory) : Inventory :=
  let current_quantity := get_quantity item in
  if input_quantity <=? current_quantity then
    let money_earned := Float32.mul (get_price item) (Float32.of_int input_quantity) in
    let item' := set_quantity item (int_sub current_quantity input_quantity) in
    let total_money' := Float32.add (total_money inv) money_earned in
    if get_quantity item' =? 0 then
      {| items := delete item_it (items inv); total_money := total_money' |}
    else
      {| items := <[item_it := item']> (items inv); total_money := total_money' |}
  else inv.

(** The quantities stored are [int]s: the typing of the member
    [int quantity]. *)
Definition quantities_are_ints (inv : Inventory) : Prop :=
  Forall (fun item => in_int (quantity item) = true) (items inv).

(** *** What an inventory holds *)

(** The names of the entries, in the order of the entries. *)
Definition names (inv : Inventory) : list string := name <$> items inv.

(** No two entries bear the same name. *)
Definition unique_names (inv : Inventory) : Prop := NoDup (names inv).

(** No entry has a price below zero. *)
Definition prices_not_negative (inv : Inventory) : Prop :=
  Forall (fun item => Float32.ltb (price item) (Float32.of_int 0) = false) (items inv).

(** Every entry has at least one unit. *)
Definition quantities_positive (inv : Inventory) : Prop :=
  Forall (fun item => 0 < quantity item) (items inv).

(** The numbers a piece of output shows with [<<] on an [int], and with
    [<<] on a [float]. *)
Definition shown_ints (out : list output) : list Z :=
  omap (fun o => match o with OutInt z => Some z | _ => None end) out.

Definition shown_floats (out : list output) : list Float32.float :=
  omap (fun o => match o with OutFloat f => Some f | _ => None end) out.

(** *** [display_data], [list_items] and [main] *)

Section Session.
Context {S : Type} `{IStream S}.

(** [static void Inventory::display_data(const Item &item)] (lines 233-237). *)
Definition display_data (item : Item) : io S unit :=
  print (OutStr "\nItem name: ");; print (OutStr (get_name item));;
  print (OutStr "\nQuantity: ");; print (OutInt (get_quantity item));;
  print (OutStr "\nPrice: ");; print (OutFloat (get_price item)).

(** The range-based [for] of lines 366-369. *)
Fixpoint list_items_loop (l : list Item) : io S unit :=
  match l with
  | [] => mret tt
  | item_ptr :: l' =>
      display_data item_ptr;;
      print (OutStr "\n");;
      list_items_loop l'
  end.

(** [void Inventory::list_items()] (lines 359-372). *)
Definition list_items (inv : Inventory) : io S unit :=
  match items inv with
  | [] => print (OutStr "\nInventory empty.");; print OutEndl
  | _ :: _ =>
      print (OutStr "\n--- Current Inventory ---");; print OutEndl;;
      list_items_loop (items inv);;
      print (OutStr "Total Money: ");; print (OutFloat (total_money inv));;
      print OutEndl;;
      print (OutStr "-------------------------");; print OutEndl
  end.

(** What [choice] holds after a [std::cin >> choice] that fails is the
    library's business (zero when the characters read form no number, the
    nearest bound when they overflow, the value it had when the stream was
    already in a failed state): a function of the stream and of the value
    before, and a parameter of the model. *)
Variable choice_after_failure : S -> Z -> Z.

(** [std::cin >> choice] of line 387; [choice] is the value before. *)
Definition cin_choice (choice : Z) : io S Z :=
  fun c =>
    let '(r, i) := extract_int (cin c) in
    Some (match r with
          | Some z => if in_int z then z else choice_after_failure (cin c) choice
          | None => choice_after_failure (cin c) choice
          end, mkConsole i (cout c)).

(** The [while (true)] loop of [main] (lines 380-412).  [rounds] bounds the
    number of times the menu is shown, [fuel] the iterations of each prompt
    loop; [choice] is the value the variable holds on entry (it starts
    uninitialised).  The loop ends at [return 0]; the inventory as it is at
    that point is handed back for the theorems to speak of. *)
Fixpoint menu_loop (rounds fuel : nat) (choice : Z) (inventory_system : Inventory)
  : io S Inventory :=
  match rounds with
  | O => no_result
  | Datatypes.S rounds' =>
      print (OutStr "\n\nMENU\n");;
      print (OutStr "1. Add new item\n");;
      print (OutStr "2. Sell item\n");;
      print (OutStr "3. List items\n");;
      print (OutStr "4. Exit\n\n");;
      print (OutStr "Enter your choice: ");;
      choice ← cin_choice choice;
      match choice with
      | 1 =>
          inventory_system ← add_item fuel inventory_system;
          menu_loop rounds' fuel choice inventory_system
      | 2 =>
          inventory_system ← sell_item fuel inventory_system;
          menu_loop rounds' fuel choice inventory_system
      | 3 =>
          list_items inventory_system;;
          menu_loop rounds' fuel choice inventory_system
      | 4 => mret inventory_system
      | _ =>
          print (OutStr "\nInvalid choice entered");;
          cin_clear;;
          cin_ignore;;
          menu_loop rounds' fuel choice inventory_system
      end
  end.

(** [int main()] (lines 375-413). *)
Definition main (rounds fuel : nat) (choice : Z) : io S Z :=
  print (OutStr "Welcome to the inventory!");;
  menu_loop rounds fuel choice Inventory_new;;
  mret 0.

End Session.

(** *** A scripted console

    An implementation of the stream operations for running the program on
    examples: every read takes the next scripted reply, and a reply of the
    wrong kind makes the extraction fail. *)

Inductive reply : Type :=
| Line (s : string)
| Number (z : Z)
| Amount (f : Float32.float)
| Garbage.

Definition script_getline (s : list reply) : string * list reply :=
  match s with
  | Line t :: s' => (t, s')
  | _ :: s' => (EmptyString, s')
  | [] => (EmptyString, [])
  end.

Definition script_int (s : list reply) : option Z * list reply :=
  match s with
  | Number z :: s' => (Some z, s')
  | _ :: s' => (None, s')
  | [] => (None, [])
  end.

Definition script_float (s : list reply) : option Float32.float * list reply :=
  match s with
  | Amount f :: s' => (Some f, s')
  | Number z :: s' => (Some (Float32.of_int z), s')
  | _ :: s' => (None, s')
  | [] => (None, [])
  end.

Global Instance script_stream : IStream (list reply) := {|
  ignore_line := fun s => s;
  getline := script_getline;
  extract_int := script_int;
  extract_float := script_float;
  clear := fun s => s
|}.

(** *** Example inventories *)

Definition armoury : Inventory :=
  {| items := [mkItem "Sword" 10 (Float32.of_int 5); mkItem "Shield" 3 (Float32.of_int 20)];
     total_money := Float32.zero |}.

(** An inventory holding as many swords as an [int] can count. *)
Definition full_shelf : Inventory :=
  {| items := [mkItem "Sword" 2147483647 (Float32.of_int 5)];
     total_money := Float32.zero |}.

End InventoryApp.

(* ===================================================================== *)
(** * Part II: theorems                                                   *)
(* ===================================================================== *)

(** ** The [int] arithmetic *)

Module Int32Facts.
Import Int32.
Local Open Scope Z_scope.

Lemma in_int_range (z : Z) : in_int z = true <-> int_min <= z <= int_max.
Proof.
  unfold in_int. rewrite andb_true_iff, !Z.leb_le. tauto.
Qed.

Lemma wrap_in_range (z : Z) : int_min <= z <= int_max -> wrap z = z.
Proof.
  unfold wrap, int_min, int_max. intros Hz.
  rewrite Z.mod_small; lia.
Qed.

Lemma wrap_is_int (z : Z) : in_int (wrap z) = true.
Proof.
  apply in_int_range. unfold wrap, int_min, int_max.
  pose proof (Z.mod_pos_bound (z + 2 ^ 31) (2 ^ 32)). lia.
Qed.

Lemma int_sub_self (a : Z) : int_sub a a = 0.
Proof.
  unfold int_sub. rewrite Z.sub_diag. apply wrap_in_range.
  unfold int_min, int_max. lia.
Qed.

End Int32Facts.

(** ** The mana component *)

Module CombatFacts.
Import Combat.
Local Open Scope Z_scope.

(** C1.  For either kind of ManaComponent and every amount: when
    [amount <= currentMana], [consumeMana] returns [true] and leaves
    [currentMana - amount] in the pool (capacity and kind untouched); when
    [amount > currentMana] it returns [false] and the component is the one
    it was. *)
Theorem consumeMana_contract (m : ManaComponent) (amount : Z) :
  (amount <= currentMana m ->
     fst (consumeMana m amount) = true /\
     currentMana (snd (consumeMana m amount)) = currentMana m - amount /\
     maxMana (snd (consumeMana m amount)) = maxMana m /\
     manaKind (snd (consumeMana m amount)) = manaKind m) /\
  (currentMana m < amount ->
     fst (consumeMana m amount) = false /\
     snd (consumeMana m amount) = m).
Proof.
  unfold consumeMana. split; intros Hcmp.
  - apply Z.leb_le in Hcmp. rewrite Hcmp. simpl. repeat split.
  - apply Z.leb_gt in Hcmp. rewrite Hcmp. simpl. split; reflexivity.
Qed.

(** The spec's scenario: mana 20/50 (ArcaneMana), an ability costing 30 is
    refused and the mana stays 20; a cost of 20 is accepted and empties the
    pool. *)
Lemma consumeMana_contract_witness :
  (fst (consumeMana (mkMana ArcaneMana 20 50) 30) = false /\
   snd (consumeMana (mkMana ArcaneMana 20 50) 30) = mkMana ArcaneMana 20 50) /\
  (fst (consumeMana (mkMana RageEnergy 20 50) 20) = true /\
   currentMana (snd (consumeMana (mkMana RageEnergy 20 50) 20)) = 20 - 20 /\
   maxMana (snd (consumeMana (mkMana RageEnergy 20 50) 20)) = 50 /\
   manaKind (snd (consumeMana (mkMana RageEnergy 20 50) 20)) = RageEnergy).
Proof.
  split.
  - apply (proj2 (consumeMana_contract (mkMana ArcaneMana 20 50) 30)). simpl. lia.
  - apply (proj1 (consumeMana_contract (mkMana RageEnergy 20 50) 20)). simpl. lia.
Defined.

End CombatFacts.

(** ** The console inventory program *)

Module InventoryFacts.
Import Int32 Int32Facts InventoryApp.
Local Open Scope Z_scope.

Lemma is_match_true (item : Item) (n : string) :
  is_match item n = true <-> name item = n.
Proof. unfold is_match. apply String.eqb_eq. Qed.

Lemma is_match_false (item : Item) (n : string) :
  is_match item n = false <-> name item <> n.
Proof. unfold is_match. apply String.eqb_neq. Qed.

(** [find_if] returns the first position whose element satisfies the
    predicate. *)
Lemma find_if_Some {A : Type} (pred : A -> bool) (l : list A) (i : nat) (x : A) :
  find_if pred l = Some (i, x) <->
  l !! i = Some x /\ pred x = true /\
  (forall j y, l !! j = Some y -> (j < i)%nat -> pred y = false).
Proof.
  unfold find_if. rewrite list_find_Some. split.
  - intros (Hi & Hp & Hmin). split; [exact Hi |]. split.
    + now apply Is_true_true.
    + intros j y Hj Hlt. specialize (Hmin j y Hj Hlt).
      destruct (pred y); [exfalso; apply Hmin; exact I | reflexivity].
  - intros (Hi & Hp & Hmin). split; [exact Hi |]. split.
    + now apply Is_true_true.
    + intros j y Hj Hlt. rewrite (Hmin j y Hj Hlt). exact (fun f => f).
Qed.

Lemma find_if_None {A : Type} (pred : A -> bool) (l : list A) :
  find_if pred l = None <-> (forall x, x ∈ l -> pred x = false).
Proof.
  unfold find_if. rewrite list_find_None, Forall_forall. split.
  - intros Hall x Hx. specialize (Hall x Hx).
    destruct (pred x); [exfalso; apply Hall; exact I | reflexivity].
  - intros Hall x Hx. rewrite (Hall x Hx). exact (fun f => f).
Qed.

(** The first entry of a given name is the one [find_if] designates. *)
Lemma find_if_first_match (l : list Item) (n : string) (it : nat) (item : Item) :
  l !! it = Some item -> name item = n ->
  (forall j item', (j < it)%nat -> l !! j = Some item' -> name item' <> n) ->
  find_if (fun item_ptr => is_match item_ptr n) l = Some (it, item).
Proof.
  intros Hit Hname Hfirst. apply find_if_Some.
  split; [exact Hit |]. split; [now apply is_match_true |].
  intros j y Hj Hlt. apply is_match_false. now apply (Hfirst j).
Qed.

Lemma find_if_no_match (l : list Item) (n : string) :
  (forall item, item ∈ l -> name item <> n) ->
  find_if (fun item_ptr => is_match item_ptr n) l = None.
Proof.
  intros Hnone. apply find_if_None. intros x Hx.
  apply is_match_false. now apply Hnone.
Qed.

(** A price that is not below zero is at least zero, unless it is a NaN. *)
Lemma not_negative_price (p : Float32.float) :
  Float32.ltb p (Float32.of_int 0) = false ->
  Float32.is_nan p = false ->
  Float32.leb (Float32.of_int 0) p = true.
Proof.
  destruct p as [s | s | | s m e]; simpl; try discriminate; try reflexivity.
  - destruct s; [discriminate | reflexivity].
  - destruct s; [discriminate | reflexivity].
Qed.

(** The two updates store [int]s only: the hypothesis "the stored quantity
    is an [int]" of the theorems below holds of every inventory the program
    builds. *)
Lemma store_item_ints (n : string) (q : Z) (p : Float32.float) (inv : Inventory) :
  in_int q = true -> quantities_are_ints inv ->
  quantities_are_ints (store_item n q p inv).
Proof.
  unfold quantities_are_ints, store_item. intros Hq Hinv.
  destruct (find_if (fun item_ptr => is_match item_ptr n) (items inv)) as [[it item] |];
    cbn [items].
  - apply Forall_insert; [exact Hinv |]. apply wrap_is_int.
  - apply Forall_app. split; [exact Hinv |]. now apply Forall_singleton.
Qed.

Lemma sell_units_ints (item_it : nat) (item : Item) (q : Z) (inv : Inventory) :
  quantities_are_ints inv -> quantities_are_ints (sell_units item_it item q inv).
Proof.
  unfold quantities_are_ints, sell_units. intros Hinv.
  destruct (q <=? get_quantity item); [| exact Hinv].
  destruct (get_quantity (set_quantity item (int_sub (get_quantity item) q)) =? 0);
    cbn [items].
  - now apply Forall_delete.
  - apply Forall_insert; [exact Hinv |]. apply wrap_is_int.
Qed.

Lemma Inventory_new_ints : quantities_are_ints Inventory_new.
Proof. unfold quantities_are_ints, Inventory_new. cbn [items]. constructor. Qed.

Section Facts.
Context {S : Type} `{IStream S}.

Lemma io_bind_unfold {A B : Type} (m : io S A) (f : A -> io S B) (c : console S) :
  (m ≫= f) c = match m c with Some (a, c') => f a c' | None => None end.
Proof. reflexivity. Qed.

Ltac io_run :=
  repeat first
    [ rewrite io_bind_unfold
    | progress cbn [cin_ignore cin_clear print no_result cin cout]
    | progress unfold mret, io_ret ].

Ltac io_run_in Hrun :=
  repeat first
    [ rewrite io_bind_unfold in Hrun
    | progress cbn [cin_ignore cin_clear print no_result cin cout] in Hrun
    | progress unfold mret, io_ret in Hrun ].

(** *** The two prompt loops *)

(** The quantity loop only lets a positive [int] through. *)
Lemma read_quantity_sound (fuel : nat) :
  forall (c : console S) (q : Z) (c' : console S),
    read_quantity fuel c = Some (q, c') -> 0 < q /\ in_int q = true.
Proof.
  induction fuel as [| fuel IH]; intros c q c' Hrun.
  - discriminate.
  - cbn [read_quantity] in Hrun. rewrite io_bind_unfold in Hrun.
    unfold cin_int in Hrun. destruct (extract_int (cin c)) as [[z |] i].
    + destruct (in_int z) eqn:Hint.
      * destruct (z <=? 0) eqn:Hz.
        -- io_run_in Hrun. now apply IH in Hrun.
        -- io_run_in Hrun. injection Hrun as <- _.
           apply Z.leb_gt in Hz. now split.
      * io_run_in Hrun. now apply IH in Hrun.
    + io_run_in Hrun. now apply IH in Hrun.
Qed.

(** The price loop only lets through a price that is not below zero. *)
Lemma read_price_sound (fuel : nat) :
  forall (c : console S) (p : Float32.float) (c' : console S),
    read_price fuel c = Some (p, c') ->
    Float32.ltb p (Float32.of_int 0) = false.
Proof.
  induction fuel as [| fuel IH]; intros c p c' Hrun.
  - discriminate.
  - cbn [read_price] in Hrun. rewrite io_bind_unfold in Hrun.
    unfold cin_float in Hrun. destruct (extract_float (cin c)) as [[x |] i].
    + destruct (Float32.ltb x (Float32.of_int 0)) eqn:Hx.
      * io_run_in Hrun. now apply IH in Hrun.
      * io_run_in Hrun. now injection Hrun as <- _.
    + io_run_in Hrun. now apply IH in Hrun.
Qed.

(** A rejected reply (a failed extraction, a number that is no [int], a
    number that is not positive) prints the message, clears the stream,
    drops the rest of the line and asks again. *)
Lemma read_quantity_reprompts (fuel : nat) (c : console S) (r : option Z) (i : S) :
  extract_int (cin c) = (r, i) ->
  match r with Some z => in_int z = false \/ z <= 0 | None => True end ->
  read_quantity (Datatypes.S fuel) c =
  read_quantity fuel
    (mkConsole (ignore_line (clear i))
       (cout c ++ [OutStr "Invalid quantity. Please enter a positive number: "])).
Proof.
  intros Hex Hbad. cbn [read_quantity]. rewrite io_bind_unfold.
  unfold cin_int. rewrite Hex. destruct r as [z |].
  - destruct (in_int z) eqn:Hint.
    + destruct Hbad as [Hbad | Hbad]; [discriminate |].
      apply Z.leb_le in Hbad. rewrite Hbad. now io_run.
    + now io_run.
  - now io_run.
Qed.

Lemma read_price_reprompts (fuel : nat) (c : console S) (r : option Float32.float) (i : S) :
  extract_float (cin c) = (r, i) ->
  match r with Some x => Float32.ltb x (Float32.of_int 0) = true | None => True end ->
  read_price (Datatypes.S fuel) c =
  read_price fuel
    (mkConsole (ignore_line (clear i))
       (cout c ++ [OutStr "Invalid price. Please enter a non-negative number: "])).
Proof.
  intros Hex Hbad. cbn [read_price]. rewrite io_bind_unfold.
  unfold cin_float. rewrite Hex. destruct r as [x |].
  - rewrite Hbad. now io_run.
  - now io_run.
Qed.

(** More iterations never change an answer. *)
Lemma read_quantity_unfold (fuel : nat) (c : console S) :
  read_quantity (Datatypes.S fuel) c =
  match cin_int c with
  | Some (Some z, c1) =>
      if z <=? 0 then
        read_quantity fuel
          (mkConsole (ignore_line (clear (cin c1)))
             (cout c1 ++ [OutStr "Invalid quantity. Please enter a positive number: "]))
      else Some (z, c1)
  | Some (None, c1) =>
      read_quantity fuel
        (mkConsole (ignore_line (clear (cin c1)))
           (cout c1 ++ [OutStr "Invalid quantity. Please enter a positive number: "]))
  | None => None
  end.
Proof.
  cbn [read_quantity]. rewrite io_bind_unfold.
  destruct (cin_int c) as [[[z |] c1] |]; [| | reflexivity].
  - destruct (z <=? 0); now io_run.
  - now io_run.
Qed.

Lemma read_price_unfold (fuel : nat) (c : console S) :
  read_price (Datatypes.S fuel) c =
  match cin_float c with
  | Some (Some x, c1) =>
      if Float32.ltb x (Float32.of_int 0) then
        read_price fuel
          (mkConsole (ignore_line (clear (cin c1)))
             (cout c1 ++ [OutStr "Invalid price. Please enter a non-negative number: "]))
      else Some (x, c1)
  | Some (None, c1) =>
      read_price fuel
        (mkConsole (ignore_line (clear (cin c1)))
           (cout c1 ++ [OutStr "Invalid price. Please enter a non-negative number: "]))
  | None => None
  end.
Proof.
  cbn [read_price]. rewrite io_bind_unfold.
  destruct (cin_float c) as [[[x |] c1] |]; [| | reflexivity].
  - destruct (Float32.ltb x (Float32.of_int 0)); now io_run.
  - now io_run.
Qed.

Lemma read_quantity_fuel (fuel : nat) :
  forall (c : console S) (r : Z * console S),
    read_quantity fuel c = Some r -> read_quantity (Datatypes.S fuel) c = Some r.
Proof.
  induction fuel as [| fuel IH]; intros c r Hrun.
  - discriminate.
  - rewrite read_quantity_unfold in Hrun. rewrite read_quantity_unfold.
    destruct (cin_int c) as [[[z |] c1] |]; [| | discriminate].
    + destruct (z <=? 0); [now apply IH | exact Hrun].
    + now apply IH.
Qed.

Lemma read_price_fuel (fuel : nat) :
  forall (c : console S) (r : Float32.float * console S),
    read_price fuel c = Some r -> read_price (Datatypes.S fuel) c = Some r.
Proof.
  induction fuel as [| fuel IH]; intros c r Hrun.
  - discriminate.
  - rewrite read_price_unfold in Hrun. rewrite read_price_unfold.
    destruct (cin_float c) as [[[x |] c1] |]; [| | discriminate].
    + destruct (Float32.ltb x (Float32.of_int 0)); [now apply IH | exact Hrun].
    + now apply IH.
Qed.

(** A reply that passes the test ends the loop at once: with the rule for
    rejected replies this gives the number of iterations a run needs, one
    more than the number of rejected replies. *)
Lemma read_quantity_accepts (fuel : nat) (c : console S) (z : Z) (i : S) :
  extract_int (cin c) = (Some z, i) -> in_int z = true -> 0 < z ->
  read_quantity (Datatypes.S fuel) c = Some (z, mkConsole i (cout c)).
Proof.
  intros Hex Hint Hz. rewrite read_quantity_unfold.
  unfold cin_int. rewrite Hex, Hint.
  apply Z.leb_gt in Hz. now rewrite Hz.
Qed.

Lemma read_price_accepts (fuel : nat) (c : console S) (x : Float32.float) (i : S) :
  extract_float (cin c) = (Some x, i) ->
  Float32.ltb x (Float32.of_int 0) = false ->
  read_price (Datatypes.S fuel) c = Some (x, mkConsole i (cout c)).
Proof.
  intros Hex Hx. rewrite read_price_unfold.
  unfold cin_float. rewrite Hex. now rewrite Hx.
Qed.

(** *** [add_item] and [remove_item] in two halves *)

Lemma add_item_splits (fuel : nat) (inv : Inventory) (c : console S) :
  add_item fuel inv c =
  match add_item_prompts fuel c with
  | Some ((n, q, p), c1) =>
      Some (store_item n q p inv,
            mkConsole (cin c1) (cout c1 ++ store_item_report n inv))
  | None => None
  end.
Proof.
  unfold add_item, add_item_prompts, store_item, store_item_report.
  io_run. unfold cin_getline. cbn [cin cout].
  destruct (getline (ignore_line (cin c))) as [n i].
  io_run.
  match goal with |- context [read_quantity fuel ?c0] =>
    destruct (read_quantity fuel c0) as [[q c1] |]; [| reflexivity] end.
  io_run.
  match goal with |- context [read_price fuel ?c0] =>
    destruct (read_price fuel c0) as [[p c2] |]; [| reflexivity] end.
  destruct (find_if (fun item_ptr => is_match item_ptr n) (items inv)) as [[it item] |];
    io_run; rewrite <- !app_assoc; reflexivity.
Qed.

Lemma remove_item_splits (fuel : nat) (item_it : nat) (inv : Inventory)
    (item : Item) (c : console S) :
  items inv !! item_it = Some item ->
  fst <$> remove_item fuel item_it inv c =
  (fun r => sell_units item_it item (fst r) inv) <$> remove_item_prompt fuel c.
Proof.
  intros Hit. unfold remove_item, remove_item_prompt, sell_units. rewrite Hit.
  io_run.
  match goal with |- context [read_quantity fuel ?c0] =>
    destruct (read_quantity fuel c0) as [[q c1] |]; [| reflexivity] end.
  cbn [fst fmap option_fmap option_map].
  destruct (q <=? get_quantity item); [| now io_run].
  io_run.
  destruct (get_quantity (set_quantity item (int_sub (get_quantity item) q)) =? 0);
    now io_run.
Qed.

(** [sell_item] hands the first entry of the entered name to
    [remove_item]. *)
Lemma sell_item_delegates (fuel : nat) (inv : Inventory) (c : console S)
    (it : nat) (item : Item) :
  items inv !! it = Some item ->
  name item = fst (getline (ignore_line (cin c))) ->
  (forall j item', (j < it)%nat -> items inv !! j = Some item' ->
     name item' <> name item) ->
  sell_item fuel inv c =
  remove_item fuel it inv
    (mkConsole (snd (getline (ignore_line (cin c))))
       (cout c ++ [OutStr "\nEnter item name to sell: "])).
Proof.
  intros Hit Hname Hfirst. unfold sell_item.
  destruct (items inv) as [| item0 rest] eqn:Hitems; [discriminate |].
  io_run. unfold cin_getline. cbn [cin cout].
  destruct (getline (ignore_line (cin c))) as [n i]. cbn [fst snd] in *.
  assert (Hfind : find_if (fun item_ptr => is_match item_ptr n) (item0 :: rest)
                  = Some (it, item)).
  { apply find_if_first_match; [exact Hit | exact Hname |].
    intros j item' Hj Hlook. rewrite <- Hname. now apply (Hfirst j). }
  cbv beta. rewrite Hfind. reflexivity.
Qed.

(** Without an entry of the entered name, and on an empty inventory,
    [sell_item] sells nothing. *)
Lemma sell_item_no_sale (fuel : nat) (inv : Inventory) (c : console S) :
  (forall item, item ∈ items inv ->
     name item <> fst (getline (ignore_line (cin c)))) ->
  fst <$> sell_item fuel inv c = Some inv.
Proof.
  intros Hnone. unfold sell_item.
  destruct (items inv) as [| item0 rest] eqn:Hitems; [now io_run |].
  io_run. unfold cin_getline. cbn [cin cout].
  destruct (getline (ignore_line (cin c))) as [n i]. cbn [fst] in Hnone.
  cbv beta. rewrite (find_if_no_match _ _ Hnone). now io_run.
Qed.

(** What [add_item] asks for: the name is the line that follows the rest
    of the menu line, the quantity is a positive [int], the price is not
    below zero. *)
Lemma add_item_prompts_sound (fuel : nat) (c c1 : console S)
    (n : string) (q : Z) (p : Float32.float) :
  add_item_prompts fuel c = Some ((n, q, p), c1) ->
  n = fst (getline (ignore_line (cin c))) /\
  0 < q /\ in_int q = true /\
  Float32.ltb p (Float32.of_int 0) = false.
Proof.
  unfold add_item_prompts. io_run. unfold cin_getline. cbn [cin cout].
  destruct (getline (ignore_line (cin c))) as [n0 i]. io_run.
  match goal with |- context [read_quantity fuel ?c0] =>
    destruct (read_quantity fuel c0) as [[q0 cq] |] eqn:Hq; [| discriminate] end.
  io_run.
  match goal with |- context [read_price fuel ?c0] =>
    destruct (read_price fuel c0) as [[p0 cp] |] eqn:Hp; [| discriminate] end.
  intros Heq. injection Heq as <- <- <- _.
  apply read_quantity_sound in Hq. apply read_price_sound in Hp.
  cbn [fst]. tauto.
Qed.

Lemma remove_item_prompt_sound (fuel : nat) (c c1 : console S) (q : Z) :
  remove_item_prompt fuel c = Some (q, c1) -> 0 < q /\ in_int q = true.
Proof.
  unfold remove_item_prompt. io_run. apply read_quantity_sound.
Qed.

Lemma add_item_prompts_fuel (fuel : nat) (c : console S)
    (r : string * Z * Float32.float * console S) :
  add_item_prompts fuel c = Some r -> add_item_prompts (Datatypes.S fuel) c = Some r.
Proof.
  unfold add_item_prompts. io_run. unfold cin_getline. cbn [cin cout].
  destruct (getline (ignore_line (cin c))) as [n i]. io_run.
  match goal with |- context [read_quantity fuel ?c0] =>
    destruct (read_quantity fuel c0) as [[q cq] |] eqn:Hq; [| discriminate] end.
  rewrite (read_quantity_fuel _ _ _ Hq). io_run.
  match goal with |- context [read_price fuel ?c0] =>
    destruct (read_price fuel c0) as [[p cp] |] eqn:Hp; [| discriminate] end.
  now rewrite (read_price_fuel _ _ _ Hp).
Qed.

(** A run of [add_item] that returns within [fuel] iterations returns the
    same within more. *)
Lemma add_item_fuel (fuel : nat) (inv : Inventory) (c : console S)
    (r : Inventory * console S) :
  add_item fuel inv c = Some r -> add_item (Datatypes.S fuel) inv c = Some r.
Proof.
  rewrite !add_item_splits.
  destruct (add_item_prompts fuel c) as [r0 |] eqn:Hprompts; [| discriminate].
  now rewrite (add_item_prompts_fuel _ _ _ Hprompts).
Qed.

Lemma fmap_fst_Some {A B : Type} (x : option (A * B)) (a : A) :
  fst <$> x = Some a -> exists b, x = Some (a, b).
Proof.
  destruct x as [[a0 b0] |]; cbn; [| discriminate].
  intros Heq. injection Heq as <-. now exists b0.
Qed.

(** *** The claims *)

(** C7, as amended.  Let [add_item] be invoked and the user enter the name
    [n], the quantity [q] and the price [p].  Then [add_item] returns, and:
    - if an entry is named [n], no entry is created (the number of entries
      is unchanged) and only the first such entry changes: its quantity
      becomes the [int] sum of its quantity and [q], which is exactly
      [quantity + q] whenever that sum does not exceed [int_max];
    - if no entry is named [n], the entry [(n, q, p)] is appended. *)
Theorem add_item_merge_or_append (fuel : nat) (inv : Inventory) (c c1 : console S)
    (n : string) (q : Z) (p : Float32.float) :
  add_item_prompts fuel c = Some ((n, q, p), c1) ->
  exists (inv' : Inventory) (c2 : console S),
    add_item fuel inv c = Some (inv', c2) /\
    (forall (it : nat) (item : Item),
       items inv !! it = Some item -> name item = n ->
       (forall j item', (j < it)%nat -> items inv !! j = Some item' -> name item' <> n) ->
       length (items inv') = length (items inv) /\
       items inv' = <[it := set_quantity item (int_add (quantity item) q)]> (items inv) /\
       (in_int (quantity item) = true -> quantity item + q <= int_max ->
        items inv' !! it = Some (mkItem (name item) (quantity item + q) (price item)))) /\
    ((exists item, item ∈ items inv /\ name item = n) ->
       length (items inv') = length (items inv)) /\
    ((forall item, item ∈ items inv -> name item <> n) ->
       items inv' = items inv ++ [mkItem n q p]).
Proof.
  intros Hprompts.
  destruct (add_item_prompts_sound _ _ _ _ _ _ Hprompts) as (_ & Hq & _ & _).
  exists (store_item n q p inv),
         (mkConsole (cin c1) (cout c1 ++ store_item_report n inv)).
  split; [rewrite add_item_splits, Hprompts; reflexivity |].
  unfold store_item. split; [| split].
  - intros it item Hit Hname Hfirst.
    rewrite (find_if_first_match _ _ _ _ Hit Hname Hfirst). cbn [items].
    split; [apply length_insert |]. split; [reflexivity |].
    intros Hint Hsum. apply in_int_range in Hint.
    unfold get_quantity, int_add. rewrite wrap_in_range by lia.
    apply list_lookup_insert_eq. now apply lookup_lt_Some in Hit.
  - intros (item0 & Hin & Hname).
    destruct (find_if (fun item_ptr => is_match item_ptr n) (items inv))
      as [[it item] |] eqn:Hfind.
    + cbn [items]. apply length_insert.
    + exfalso. rewrite find_if_None in Hfind. specialize (Hfind item0 Hin).
      apply is_match_false in Hfind. contradiction.
  - intros Hnone. now rewrite (find_if_no_match _ _ Hnone).
Qed.

(** C10.  When the entered name [n] is that of an entry, and [item], at
    position [it], is the first such entry, then after [add_item]:
    position [it] holds an entry with the name and the price of [item] (the
    entered price [p] is stored nowhere and no message mentions it: any
    other price gives the same inventory and the same output), its quantity
    being the [int] sum; every other position, the number of entries and
    [total_money] are unchanged. *)
Theorem add_item_merge_frame (fuel : nat) (inv : Inventory) (c c1 : console S)
    (n : string) (q : Z) (p : Float32.float) (it : nat) (item : Item) :
  add_item_prompts fuel c = Some ((n, q, p), c1) ->
  items inv !! it = Some item -> name item = n ->
  (forall j item', (j < it)%nat -> items inv !! j = Some item' -> name item' <> n) ->
  exists (inv' : Inventory) (c2 : console S),
    add_item fuel inv c = Some (inv', c2) /\
    items inv' !! it =
      Some (mkItem (name item) (int_add (quantity item) q) (price item)) /\
    (forall j, j <> it -> items inv' !! j = items inv !! j) /\
    length (items inv') = length (items inv) /\
    total_money inv' = total_money inv /\
    (forall p', store_item n q p' inv = inv') /\
    cout c2 = cout c1 ++ [OutStr "\nItem '"; OutStr n;
                          OutStr "' already exists. Quantity updated."; OutEndl].
Proof.
  intros Hprompts Hit Hname Hfirst.
  pose proof (find_if_first_match _ _ _ _ Hit Hname Hfirst) as Hfind.
  exists (store_item n q p inv),
         (mkConsole (cin c1) (cout c1 ++ store_item_report n inv)).
  split; [rewrite add_item_splits, Hprompts; reflexivity |].
  unfold store_item, store_item_report. rewrite Hfind. cbn [items total_money cout].
  split.
  { apply list_lookup_insert_eq. now apply lookup_lt_Some in Hit. }
  split.
  { intros j Hj. apply list_lookup_insert_ne. congruence. }
  split; [apply length_insert |].
  repeat split.
Qed.

(** C8.  Let [remove_item] be invoked on the entry [item] at position
    [item_it] and the user ask to sell [q] units.  Then [remove_item]
    returns, and:
    - if [q] equals the quantity of [item], the entry is erased: the other
      entries stay, in their order, and when no other entry bears its name,
      no entry of that name is left;
    - if [q] is less (the stored quantity being an [int]), the entry stays
      where it is with the quantity lowered by [q], which is still
      positive, and nothing else in the list changes;
    - in both cases [total_money] grows by [price * q];
    - if [q] is more, the inventory is unchanged. *)
Theorem remove_item_sale (fuel : nat) (item_it : nat) (inv : Inventory) (item : Item)
    (c c1 : console S) (q : Z) :
  items inv !! item_it = Some item ->
  remove_item_prompt fuel c = Some (q, c1) ->
  exists (inv' : Inventory) (c2 : console S),
    remove_item fuel item_it inv c = Some (inv', c2) /\
    (q = quantity item ->
       items inv' = delete item_it (items inv) /\
       length (items inv') = (length (items inv) - 1)%nat /\
       ((forall j item', j <> item_it -> items inv !! j = Some item' ->
           name item' <> name item) ->
        forall item', item' ∈ items inv' -> name item' <> name item)) /\
    (q < quantity item -> in_int (quantity item) = true ->
       items inv' = <[item_it := mkItem (name item) (quantity item - q) (price item)]> (items inv) /\
       items inv' !! item_it = Some (mkItem (name item) (quantity item - q) (price item)) /\
       0 < quantity item - q /\
       length (items inv') = length (items inv)) /\
    (q <= quantity item ->
       total_money inv' =
       Float32.add (total_money inv) (Float32.mul (price item) (Float32.of_int q))) /\
    (quantity item < q -> inv' = inv).
Proof.
  intros Hit Hprompt.
  destruct (remove_item_prompt_sound _ _ _ _ Hprompt) as [Hq Hqint].
  pose proof (remove_item_splits fuel item_it inv item c Hit) as Hsplit.
  rewrite Hprompt in Hsplit. cbn [fmap option_fmap option_map fst] in Hsplit.
  apply fmap_fst_Some in Hsplit as [c2 Hrun].
  exists (sell_units item_it item q inv), c2. split; [exact Hrun |].
  unfold sell_units, get_quantity, get_price. cbn [quantity set_quantity].
  repeat apply conj.
  - intros ->. rewrite Z.leb_refl, int_sub_self. cbn [Z.eqb items].
    split; [reflexivity |]. split; [apply length_delete; now exists item |].
    intros Hothers item' Hin.
    apply list_elem_of_lookup_1 in Hin as [k Hk].
    destruct (decide (k < item_it)%nat) as [Hlt | Hge].
    + rewrite list_lookup_delete_lt in Hk by exact Hlt.
      apply (Hothers k); [lia | exact Hk].
    + rewrite list_lookup_delete_ge in Hk by lia.
      apply (Hothers (Datatypes.S k)); [lia | exact Hk].
  - intros Hlt Hint. apply in_int_range in Hint. apply in_int_range in Hqint.
    unfold int_min, int_max in *.
    assert (Hle : (q <=? quantity item) = true) by (apply Z.leb_le; lia).
    rewrite Hle. unfold int_sub. rewrite wrap_in_range by (unfold int_min, int_max; lia).
    assert (Hnz : (quantity item - q =? 0) = false) by (apply Z.eqb_neq; lia).
    rewrite Hnz. cbn [items]. split; [reflexivity |].
    split; [apply list_lookup_insert_eq; now apply lookup_lt_Some in Hit |].
    split; [lia | apply length_insert].
  - intros Hle. apply Z.leb_le in Hle. rewrite Hle.
    destruct (int_sub (quantity item) q =? 0); reflexivity.
  - intros Hgt. apply Z.leb_gt in Hgt. now rewrite Hgt.
Qed.

(** C9.  Whatever the user types:
    - a quantity that leaves the quantity loop (of [add_item] and of
      [remove_item]) is a positive [int];
    - a price that leaves the price loop is not below zero, hence at least
      zero unless it is a NaN;
    - the inventory [add_item] returns is the update for an entered
      quantity that is positive and an entered price that is not below
      zero;
    - the inventory [remove_item] returns is the one of a sale of a
      positive number of units;
    - a rejected quantity or price is followed by the message and a new
      attempt, and is not passed on. *)
Theorem prompts_accept_valid_input (fuel : nat) (c : console S) :
  (forall q c', read_quantity fuel c = Some (q, c') -> 0 < q <= int_max) /\
  (forall p c', read_price fuel c = Some (p, c') ->
     Float32.ltb p (Float32.of_int 0) = false /\
     (Float32.is_nan p = false -> Float32.leb (Float32.of_int 0) p = true)) /\
  (forall inv inv' c', add_item fuel inv c = Some (inv', c') ->
     exists n q p,
       0 < q <= int_max /\ Float32.ltb p (Float32.of_int 0) = false /\
       inv' = store_item n q p inv) /\
  (forall inv item_it item inv' c',
     items inv !! item_it = Some item ->
     remove_item fuel item_it inv c = Some (inv', c') ->
     exists q, 0 < q <= int_max /\ inv' = sell_units item_it item q inv) /\
  (forall r i, extract_int (cin c) = (r, i) ->
     match r with Some z => in_int z = false \/ z <= 0 | None => True end ->
     read_quantity (Datatypes.S fuel) c =
     read_quantity fuel
       (mkConsole (ignore_line (clear i))
          (cout c ++ [OutStr "Invalid quantity. Please enter a positive number: "]))) /\
  (forall r i, extract_float (cin c) = (r, i) ->
     match r with
     | Some x => Float32.ltb x (Float32.of_int 0) = true
     | None => True
     end ->
     read_price (Datatypes.S fuel) c =
     read_price fuel
       (mkConsole (ignore_line (clear i))
          (cout c ++ [OutStr "Invalid price. Please enter a non-negative number: "]))).
Proof.
  repeat apply conj.
  - intros q c' Hrun. apply read_quantity_sound in Hrun as [Hq Hint].
    apply in_int_range in Hint. lia.
  - intros p c' Hrun. apply read_price_sound in Hrun.
    split; [exact Hrun | now apply not_negative_price].
  - intros inv inv' c' Hrun. rewrite add_item_splits in Hrun.
    destruct (add_item_prompts fuel c) as [[[[n q] p] c1] |] eqn:Hprompts;
      [| discriminate].
    injection Hrun as <- _.
    destruct (add_item_prompts_sound _ _ _ _ _ _ Hprompts) as (_ & Hq & Hint & Hp).
    apply in_int_range in Hint.
    exists n, q, p. repeat split; [lia | lia | exact Hp].
  - intros inv item_it item inv' c' Hit Hrun.
    pose proof (remove_item_splits fuel item_it inv item c Hit) as Hsplit.
    rewrite Hrun in Hsplit. cbn [fmap option_fmap option_map fst] in Hsplit.
    destruct (remove_item_prompt fuel c) as [[q c1] |] eqn:Hprompt;
      cbn in Hsplit; [| discriminate].
    injection Hsplit as ->.
    destruct (remove_item_prompt_sound _ _ _ _ Hprompt) as [Hq Hint].
    apply in_int_range in Hint.
    exists q. repeat split; lia.
  - intros r i. apply read_quantity_reprompts.
  - intros r i. apply read_price_reprompts.
Qed.

End Facts.

(** *** Runs on the scripted console *)

(** "Shield" is entered with a first quantity of 0, which is refused, then
    with 4: the second entry goes from 3 to 7 and no entry is added.  "Bow"
    is new and is appended. *)
Lemma add_item_merge_or_append_witness :
  (exists inv' c2,
     add_item 3 armoury
       (mkConsole [Line "Shield"; Number 0; Number 4; Number 9] []) = Some (inv', c2) /\
     items inv' = [mkItem "Sword" 10 (Float32.of_int 5);
                   mkItem "Shield" 7 (Float32.of_int 20)]) /\
  (exists inv' c2,
     add_item 3 armoury
       (mkConsole [Line "Bow"; Number 2; Number 9] []) = Some (inv', c2) /\
     items inv' = [mkItem "Sword" 10 (Float32.of_int 5);
                   mkItem "Shield" 3 (Float32.of_int 20);
                   mkItem "Bow" 2 (Float32.of_int 9)]).
Proof.
  split.
  - edestruct (add_item_merge_or_append (S:=list reply) 3 armoury
                 (mkConsole [Line "Shield"; Number 0; Number 4; Number 9] []))
      as (inv' & c2 & Hrun & Hmerge & _ & _).
    { vm_compute. reflexivity. }
    exists inv', c2. split; [exact Hrun |].
    destruct (Hmerge 1%nat (mkItem "Shield" 3 (Float32.of_int 20)))
      as (_ & Hitems & _).
    + reflexivity.
    + reflexivity.
    + intros j item' Hj Hlook. destruct j as [| j]; [| lia].
      injection Hlook as <-. discriminate.
    + rewrite Hitems. reflexivity.
  - edestruct (add_item_merge_or_append (S:=list reply) 3 armoury
                 (mkConsole [Line "Bow"; Number 2; Number 9] []))
      as (inv' & c2 & Hrun & _ & _ & Happend).
    { vm_compute. reflexivity. }
    exists inv', c2. split; [exact Hrun |].
    rewrite Happend; [reflexivity |].
    intros item Hin. unfold armoury in Hin. cbn [items] in Hin.
    apply elem_of_cons in Hin as [-> | Hin]; [discriminate |].
    apply elem_of_cons in Hin as [-> | Hin]; [discriminate |].
    now apply elem_of_nil in Hin.
Defined.

(** C7 as stated fails when the sum does not fit an [int].  One call of
    [add_item] on the empty inventory stores 2147483647 swords; a second
    call entering one more sword leaves -2147483648 in the entry, not
    2147483647 + 1. *)
Lemma add_item_overflow_counterexample :
  fst <$> add_item 1 Inventory_new
            (mkConsole [Line "Sword"; Number 2147483647; Number 5] [])
    = Some full_shelf /\
  fst <$> add_item 1 full_shelf (mkConsole [Line "Sword"; Number 1; Number 5] [])
    = Some {| items := [mkItem "Sword" (-2147483648) (Float32.of_int 5)];
              total_money := Float32.zero |} /\
  -2147483648 <> 2147483647 + 1.
Proof.
  split; [vm_compute; reflexivity |].
  split; [vm_compute; reflexivity | lia].
Qed.

(** "Sword" is entered again with the price 99: the entry keeps the price 5,
    and the shield, the number of entries and the money are as before. *)
Lemma add_item_merge_frame_witness :
  exists inv' c2,
    add_item 2 armoury (mkConsole [Line "Sword"; Number 2; Number 99] []) = Some (inv', c2) /\
    items inv' !! 0%nat = Some (mkItem "Sword" 12 (Float32.of_int 5)) /\
    items inv' !! 1%nat = Some (mkItem "Shield" 3 (Float32.of_int 20)) /\
    length (items inv') = 2%nat /\
    total_money inv' = Float32.zero.
Proof.
  edestruct (add_item_merge_frame (S:=list reply) 2 armoury
               (mkConsole [Line "Sword"; Number 2; Number 99] []))
    with (it := 0%nat) (item := mkItem "Sword" 10 (Float32.of_int 5))
    as (inv' & c2 & Hrun & Hat & Hframe & Hlen & Hmoney & _ & _).
  { vm_compute. reflexivity. }
  { reflexivity. }
  { reflexivity. }
  { intros j item' Hj. lia. }
  exists inv', c2. split; [exact Hrun |].
  split; [exact Hat |].
  split; [rewrite (Hframe 1%nat) by lia; reflexivity |].
  split; [exact Hlen | exact Hmoney].
Defined.

(** All 10 swords are sold: the entry is gone and only the shield is left.
    One shield out of 3 is sold: the entry stays, with 2. *)
Lemma remove_item_sale_witness :
  (exists inv' c2,
     remove_item 2 0 armoury (mkConsole [Number 10] []) = Some (inv', c2) /\
     items inv' = [mkItem "Shield" 3 (Float32.of_int 20)]) /\
  (exists inv' c2,
     remove_item 2 1 armoury (mkConsole [Number (-1); Number 1] []) = Some (inv', c2) /\
     items inv' = [mkItem "Sword" 10 (Float32.of_int 5);
                   mkItem "Shield" 2 (Float32.of_int 20)]).
Proof.
  split.
  - edestruct (remove_item_sale (S:=list reply) 2 0 armoury
                 (mkItem "Sword" 10 (Float32.of_int 5)) (mkConsole [Number 10] []))
      as (inv' & c2 & Hrun & Hall & _).
    { reflexivity. }
    { vm_compute. reflexivity. }
    exists inv', c2. split; [exact Hrun |].
    destruct Hall as (Hitems & _); [reflexivity |].
    rewrite Hitems. reflexivity.
  - edestruct (remove_item_sale (S:=list reply) 2 1 armoury
                 (mkItem "Shield" 3 (Float32.of_int 20))
                 (mkConsole [Number (-1); Number 1] []))
      as (inv' & c2 & Hrun & _ & Hsome & _).
    { reflexivity. }
    { vm_compute. reflexivity. }
    exists inv', c2. split; [exact Hrun |].
    destruct Hsome as (Hitems & _); [simpl; lia | reflexivity |].
    rewrite Hitems. reflexivity.
Defined.

(** Of the replies "x", -2, 4 the quantity loop lets 4 through; of the
    replies -1, 3 the price loop lets 3 through. *)
Lemma prompts_accept_valid_input_witness :
  (fst <$> read_quantity 3 (mkConsole [Garbage; Number (-2); Number 4] []) = Some 4 /\
   0 < 4 <= int_max) /\
  (fst <$> read_price 3 (mkConsole [Number (-1); Number 3] []) = Some (Float32.of_int 3) /\
   Float32.leb (Float32.of_int 0) (Float32.of_int 3) = true).
Proof.
  split.
  - split; [vm_compute; reflexivity |].
    refine (proj1 (prompts_accept_valid_input (S:=list reply) 3
                     (mkConsole [Garbage; Number (-2); Number 4] [])) 4 _ _).
    vm_compute. reflexivity.
  - split; [vm_compute; reflexivity |].
    refine (proj2 (proj1 (proj2 (prompts_accept_valid_input (S:=list reply) 3
                     (mkConsole [Number (-1); Number 3] []))) (Float32.of_int 3) _ _) _).
    + vm_compute. reflexivity.
    + reflexivity.
Defined.

End InventoryFacts.

(** ** The inventory over a session *)

Module SessionFacts.
Import Int32 Int32Facts InventoryApp InventoryFacts.
Local Open Scope Z_scope.

(** *** The two updates *)

Lemma names_store_item (n : string) (q : Z) (p : Float32.float) (inv : Inventory) :
  ((n ∈ names inv) /\ names (store_item n q p inv) = names inv) \/
  ((n ∉ names inv) /\ names (store_item n q p inv) = names inv ++ [n]).
Proof.
  unfold names, store_item.
  destruct (find_if (fun item_ptr => is_match item_ptr n) (items inv))
    as [[it item] |] eqn:Hfind; cbn [items].
  - apply find_if_Some in Hfind as (Hit & Hmatch & _).
    apply is_match_true in Hmatch. left. split.
    + apply list_elem_of_fmap. exists item. split; [now rewrite Hmatch |].
      now apply list_elem_of_lookup_2 in Hit.
    + rewrite list_fmap_insert. apply list_insert_id.
      rewrite list_lookup_fmap, Hit. reflexivity.
  - right. split.
    + intros Hin. apply list_elem_of_fmap in Hin as (item & Hname & Hin).
      rewrite find_if_None in Hfind. specialize (Hfind item Hin).
      apply is_match_false in Hfind. congruence.
    + now rewrite fmap_app.
Qed.

Lemma unique_names_store_item (n : string) (q : Z) (p : Float32.float) (inv : Inventory) :
  unique_names inv -> unique_names (store_item n q p inv).
Proof.
  unfold unique_names. intros Hnodup.
  destruct (names_store_item n q p inv) as [[_ ->] | [Hout ->]]; [exact Hnodup |].
  apply NoDup_app. split; [exact Hnodup |]. split.
  - intros x Hx Hx'. apply list_elem_of_singleton in Hx'. congruence.
  - apply NoDup_singleton.
Qed.

Lemma prices_store_item (n : string) (q : Z) (p : Float32.float) (inv : Inventory) :
  Float32.ltb p (Float32.of_int 0) = false ->
  prices_not_negative inv -> prices_not_negative (store_item n q p inv).
Proof.
  unfold prices_not_negative, store_item. intros Hp Hinv.
  destruct (find_if (fun item_ptr => is_match item_ptr n) (items inv))
    as [[it item] |] eqn:Hfind; cbn [items].
  - apply find_if_Some in Hfind as (Hit & _ & _).
    apply Forall_insert; [exact Hinv |]. cbn [price set_quantity].
    rewrite Forall_forall in Hinv. apply Hinv.
    now apply list_elem_of_lookup_2 in Hit.
  - apply Forall_app. split; [exact Hinv |]. now apply Forall_singleton.
Qed.

(** The names a sale leaves: those there were, or those but the one of the
    entry sold out. *)
Lemma names_sell_units (item_it : nat) (item : Item) (q : Z) (inv : Inventory) :
  items inv !! item_it = Some item ->
  names (sell_units item_it item q inv) = names inv \/
  names (sell_units item_it item q inv) = delete item_it (names inv).
Proof.
  intros Hit. unfold names, sell_units.
  destruct (q <=? get_quantity item); [| now left].
  destruct (get_quantity (set_quantity item (int_sub (get_quantity item) q)) =? 0);
    cbn [items].
  - right. apply list_fmap_delete.
  - left. rewrite list_fmap_insert. apply list_insert_id.
    now rewrite list_lookup_fmap, Hit.
Qed.

Lemma prices_sell_units (item_it : nat) (item : Item) (q : Z) (inv : Inventory) :
  items inv !! item_it = Some item ->
  prices_not_negative inv -> prices_not_negative (sell_units item_it item q inv).
Proof.
  unfold prices_not_negative, sell_units. intros Hit Hinv.
  destruct (q <=? get_quantity item); [| exact Hinv].
  destruct (get_quantity (set_quantity item (int_sub (get_quantity item) q)) =? 0);
    cbn [items].
  - now apply Forall_delete.
  - apply Forall_insert; [exact Hinv |]. cbn [price set_quantity].
    rewrite Forall_forall in Hinv. apply Hinv.
    now apply list_elem_of_lookup_2 in Hit.
Qed.

Lemma positive_sell_units (item_it : nat) (item : Item) (q : Z) (inv : Inventory) :
  items inv !! item_it = Some item ->
  0 < q -> in_int q = true ->
  quantities_are_ints inv -> quantities_positive inv ->
  quantities_positive (sell_units item_it item q inv).
Proof.
  unfold quantities_are_ints, quantities_positive, sell_units, get_quantity.
  intros Hit Hq Hqint Hints Hpos.
  destruct (q <=? quantity item) eqn:Hle; [| exact Hpos].
  apply Z.leb_le in Hle. cbn [quantity set_quantity].
  destruct (int_sub (quantity item) q =? 0) eqn:Hzero; cbn [items].
  - now apply Forall_delete.
  - apply Forall_insert; [exact Hpos |]. cbn [quantity].
    apply Z.eqb_neq in Hzero. revert Hzero. unfold int_sub.
    rewrite Forall_forall in Hints.
    assert (Hint : in_int (quantity item) = true).
    { apply Hints. now apply list_elem_of_lookup_2 in Hit. }
    apply in_int_range in Hint. apply in_int_range in Hqint.
    assert (Hfit : int_min <= quantity item - q <= int_max).
    { unfold int_min, int_max in *. lia. }
    rewrite (wrap_in_range _ Hfit). cbn [quantity set_quantity]. lia.
Qed.

Section Runs.
Context {S : Type} `{IStream S}.

Ltac io_step :=
  repeat first
    [ rewrite io_bind_unfold
    | progress cbn [cin_ignore cin_clear print no_result cin cout]
    | progress unfold mret, io_ret ].

Ltac io_step_in Hrun :=
  repeat first
    [ rewrite io_bind_unfold in Hrun
    | progress cbn [cin_ignore cin_clear print no_result cin cout] in Hrun
    | progress unfold mret, io_ret in Hrun ].

(** *** What a call of [add_item] or [sell_item] comes down to *)

Lemma add_item_cases (fuel : nat) (inv inv' : Inventory) (c c' : console S) :
  add_item fuel inv c = Some (inv', c') ->
  exists n q p c1,
    add_item_prompts fuel c = Some ((n, q, p), c1) /\
    inv' = store_item n q p inv.
Proof.
  rewrite add_item_splits.
  destruct (add_item_prompts fuel c) as [[[[n q] p] c1] |]; [| discriminate].
  intros Heq. injection Heq as <- _. now exists n, q, p, c1.
Qed.

Lemma sell_item_nonempty (fuel : nat) (inv : Inventory) (c : console S) :
  items inv <> [] ->
  sell_item fuel inv c =
  (cin_ignore;;
   print (OutStr "\nEnter item name to sell: ");;
   item_to_check ← cin_getline;
   match find_if (fun item_ptr => is_match item_ptr item_to_check) (items inv) with
   | Some (it, _) => remove_item fuel it inv
   | None =>
       print (OutStr "\nThis item is not in your Inventory.");; print OutEndl;;
       mret inv
   end) c.
Proof.
  intros Hne. unfold sell_item.
  destruct (items inv) as [| item0 rest]; [contradiction | reflexivity].
Qed.

Lemma sell_item_cases (fuel : nat) (inv inv' : Inventory) (c c' : console S) :
  sell_item fuel inv c = Some (inv', c') ->
  inv' = inv \/
  exists it item q,
    items inv !! it = Some item /\ 0 < q /\ in_int q = true /\
    inv' = sell_units it item q inv.
Proof.
  destruct (decide (items inv = [])) as [Hempty | Hne].
  - unfold sell_item. rewrite Hempty. io_step.
    intros Heq. injection Heq as <- _. now left.
  - rewrite (sell_item_nonempty _ _ _ Hne). io_step.
    unfold cin_getline. cbn [cin cout].
    destruct (getline (ignore_line (cin c))) as [n i].
    destruct (find_if (fun item_ptr => is_match item_ptr n) (items inv))
      as [[it item] |] eqn:Hfind.
    + apply find_if_Some in Hfind as (Hit & _ & _).
      intros Hrun. right.
      match type of Hrun with remove_item _ _ _ ?c0 = _ =>
        pose proof (remove_item_splits fuel it inv item c0 Hit) as Hsplit end.
      rewrite Hrun in Hsplit. cbn [fmap option_fmap option_map fst] in Hsplit.
      match type of Hsplit with context [remove_item_prompt fuel ?c0] =>
        destruct (remove_item_prompt fuel c0) as [[q c1] |] eqn:Hprompt;
          cbn in Hsplit; [| discriminate] end.
      injection Hsplit as ->.
      destruct (remove_item_prompt_sound _ _ _ _ Hprompt) as [Hq Hint].
      now exists it, item, q.
    + io_step. intros Heq. injection Heq as <- _. now left.
Qed.


(** *** Names *)

(** X1.  [add_item] changes the list of names in one way only: the entered
    name is put at the end if no entry bears it, and otherwise the list is
    as it was.  Hence an inventory without two entries of one name stays
    so. *)
Theorem add_item_names (fuel : nat) (inv inv' : Inventory) (c c' : console S) :
  add_item fuel inv c = Some (inv', c') ->
  (((fst (getline (ignore_line (cin c))) ∈ names inv) /\ names inv' = names inv) \/
   ((fst (getline (ignore_line (cin c))) ∉ names inv) /\
    names inv' = names inv ++ [fst (getline (ignore_line (cin c)))])) /\
  (unique_names inv -> unique_names inv').
Proof.
  intros Hrun. apply add_item_cases in Hrun as (n & q & p & c1 & Hprompts & ->).
  destruct (add_item_prompts_sound _ _ _ _ _ _ Hprompts) as (<- & _).
  split; [apply names_store_item | apply unique_names_store_item].
Qed.

(** X2.  [sell_item] adds no name and moves none: the names it leaves are
    those there were, or those but one.  Hence an inventory without two
    entries of one name stays so, and at most one entry goes. *)
Theorem sell_item_names (fuel : nat) (inv inv' : Inventory) (c c' : console S) :
  sell_item fuel inv c = Some (inv', c') ->
  (names inv' `sublist_of` names inv) /\
  (length (names inv) <= Datatypes.S (length (names inv')))%nat /\
  (unique_names inv -> unique_names inv').
Proof.
  intros Hrun.
  assert (Hnames : names inv' = names inv \/
                   exists it, is_Some (names inv !! it) /\
                              names inv' = delete it (names inv)).
  { apply sell_item_cases in Hrun as [-> | (it & item & q & Hit & _ & _ & ->)].
    - now left.
    - destruct (names_sell_units it item q inv Hit) as [Heq | Heq]; [now left |].
      right. exists it. split; [| exact Heq].
      unfold names. rewrite list_lookup_fmap, Hit. now eexists. }
  unfold unique_names.
  destruct Hnames as [-> | (it & Hsome & ->)].
  - split; [reflexivity |]. split; [lia | tauto].
  - split; [apply sublist_delete |]. split.
    + rewrite (length_delete _ _ Hsome). lia.
    + intros Hnodup.
      apply (sublist_NoDup _ (names inv)); [exact Hnodup | apply sublist_delete].
Qed.

(** *** Prices and quantities *)

(** X3.  Neither [add_item] nor [sell_item] ever leaves a price below zero
    in an inventory that had none. *)
Theorem prices_stay_not_negative (fuel : nat) (inv inv' : Inventory) (c c' : console S) :
  add_item fuel inv c = Some (inv', c') \/ sell_item fuel inv c = Some (inv', c') ->
  prices_not_negative inv -> prices_not_negative inv'.
Proof.
  intros [Hrun | Hrun] Hinv.
  - apply add_item_cases in Hrun as (n & q & p & c1 & Hprompts & ->).
    destruct (add_item_prompts_sound _ _ _ _ _ _ Hprompts) as (_ & _ & _ & Hp).
    now apply prices_store_item.
  - apply sell_item_cases in Hrun as [-> | (it & item & q & Hit & _ & _ & ->)];
      [exact Hinv |].
    now apply prices_sell_units.
Qed.

(** X4.  [sell_item] never leaves an entry without units: if every stored
    quantity is a positive [int] before, every stored quantity is positive
    after. *)
Theorem sell_item_keeps_positive (fuel : nat) (inv inv' : Inventory) (c c' : console S) :
  sell_item fuel inv c = Some (inv', c') ->
  quantities_are_ints inv -> quantities_positive inv ->
  quantities_positive inv'.
Proof.
  intros Hrun Hints Hpos.
  apply sell_item_cases in Hrun as [-> | (it & item & q & Hit & Hq & Hqint & ->)];
    [exact Hpos |].
  now apply positive_sell_units.
Qed.


(** X6.  [add_item] never removes, moves, renames or reprices an entry
    and never touches [total_money]: every position that held an entry
    holds an entry of the same name and price; at most one entry is
    added. *)
Theorem add_item_frame (fuel : nat) (inv inv' : Inventory) (c c' : console S) :
  add_item fuel inv c = Some (inv', c') ->
  total_money inv' = total_money inv /\
  (length (items inv) <= length (items inv') <= Datatypes.S (length (items inv)))%nat /\
  (forall j item, items inv !! j = Some item ->
     exists item', items inv' !! j = Some item' /\
                   name item' = name item /\ price item' = price item).
Proof.
  intros Hrun. apply add_item_cases in Hrun as (n & q & p & c1 & _ & ->).
  unfold store_item.
  destruct (find_if (fun item_ptr => is_match item_ptr n) (items inv))
    as [[it found] |] eqn:Hfind; cbn [items total_money].
  - apply find_if_Some in Hfind as (Hit & _ & _).
    split; [reflexivity |]. split; [rewrite length_insert; lia |].
    intros j item Hj. destruct (decide (j = it)) as [-> | Hne].
    + rewrite Hit in Hj. injection Hj as <-.
      exists (set_quantity found (int_add (get_quantity found) q)).
      split; [| split; reflexivity].
      apply list_lookup_insert_eq. now apply lookup_lt_Some in Hit.
    + exists item. split; [| split; reflexivity].
      rewrite list_lookup_insert_ne by congruence. exact Hj.
  - split; [reflexivity |]. split; [rewrite length_app; cbn; lia |].
    intros j item Hj. exists item. split; [| split; reflexivity].
    now apply lookup_app_l_Some.
Qed.

(** *** Calls one after the other *)

(** X7.  Selling at once all the units of an entry just added under a new
    name gives back the list of entries there was; [total_money] has grown
    by [price * quantity]. *)
Theorem add_then_sell_all (fuel : nat) (inv : Inventory) (c c1 d d1 : console S)
    (n : string) (q : Z) (p : Float32.float) :
  add_item_prompts fuel c = Some ((n, q, p), c1) ->
  (forall item, item ∈ items inv -> name item <> n) ->
  fst (getline (ignore_line (cin d))) = n ->
  remove_item_prompt fuel
    (mkConsole (snd (getline (ignore_line (cin d))))
       (cout d ++ [OutStr "\nEnter item name to sell: "])) = Some (q, d1) ->
  exists inv1 c2 inv2 d2,
    add_item fuel inv c = Some (inv1, c2) /\
    sell_item fuel inv1 d = Some (inv2, d2) /\
    items inv2 = items inv /\
    total_money inv2 =
      Float32.add (total_money inv) (Float32.mul p (Float32.of_int q)).
Proof.
  intros Hprompts Hnew Hname Hsell.
  pose (added := mkItem n q p).
  assert (Hstore : store_item n q p inv =
                   {| items := items inv ++ [added]; total_money := total_money inv |}).
  { unfold store_item. now rewrite (find_if_no_match _ _ Hnew). }
  assert (Hat : items (store_item n q p inv) !! length (items inv) = Some added).
  { rewrite Hstore. cbn [items]. apply list_lookup_middle. reflexivity. }
  pose proof (remove_item_splits fuel (length (items inv)) (store_item n q p inv) added
                (mkConsole (snd (getline (ignore_line (cin d))))
                   (cout d ++ [OutStr "\nEnter item name to sell: "])) Hat) as Hsplit.
  rewrite Hsell in Hsplit. cbn [fmap option_fmap option_map fst] in Hsplit.
  apply fmap_fst_Some in Hsplit as [d2 Hrun].
  exists (store_item n q p inv),
         (mkConsole (cin c1) (cout c1 ++ store_item_report n inv)),
         (sell_units (length (items inv)) added q (store_item n q p inv)), d2.
  split; [rewrite add_item_splits, Hprompts; reflexivity |].
  split.
  - rewrite <- Hrun.
    apply (sell_item_delegates fuel (store_item n q p inv) d (length (items inv)) added).
    + exact Hat.
    + now rewrite Hname.
    + intros j item' Hj Hlook. rewrite Hstore in Hlook. cbn [items] in Hlook.
      rewrite lookup_app_l in Hlook by exact Hj.
      apply list_elem_of_lookup_2 in Hlook. cbn [name added]. now apply Hnew.
  - unfold sell_units, get_quantity, get_price. cbn [quantity price added set_quantity].
    rewrite Z.leb_refl, int_sub_self. cbn [Z.eqb items total_money].
    rewrite Hstore. cbn [items total_money]. split; [| reflexivity].
    rewrite (delete_middle (items inv) [] added). apply app_nil_r.
Qed.

(** X8.  Entering twice the same name, new to the inventory, gives one
    entry: it holds the sum of the two quantities (as long as the sum does
    not exceed [int_max]) and the price entered first; the price entered
    second is lost. *)
Theorem add_item_twice (fuel : nat) (inv : Inventory) (c c1 d d1 : console S)
    (n : string) (q1 q2 : Z) (p1 p2 : Float32.float) :
  add_item_prompts fuel c = Some ((n, q1, p1), c1) ->
  add_item_prompts fuel d = Some ((n, q2, p2), d1) ->
  (forall item, item ∈ items inv -> name item <> n) ->
  q1 + q2 <= int_max ->
  exists inv1 c2 inv2 d2,
    add_item fuel inv c = Some (inv1, c2) /\
    add_item fuel inv1 d = Some (inv2, d2) /\
    items inv2 = items inv ++ [mkItem n (q1 + q2) p1] /\
    total_money inv2 = total_money inv.
Proof.
  intros Hfirst Hsecond Hnew Hsum.
  destruct (add_item_prompts_sound _ _ _ _ _ _ Hfirst) as (_ & Hq1 & Hint1 & _).
  destruct (add_item_prompts_sound _ _ _ _ _ _ Hsecond) as (_ & Hq2 & _ & _).
  apply in_int_range in Hint1.
  assert (Hstore : store_item n q1 p1 inv =
                   {| items := items inv ++ [mkItem n q1 p1];
                      total_money := total_money inv |}).
  { unfold store_item. now rewrite (find_if_no_match _ _ Hnew). }
  exists (store_item n q1 p1 inv),
         (mkConsole (cin c1) (cout c1 ++ store_item_report n inv)),
         (store_item n q2 p2 (store_item n q1 p1 inv)),
         (mkConsole (cin d1) (cout d1 ++ store_item_report n (store_item n q1 p1 inv))).
  split; [rewrite add_item_splits, Hfirst; reflexivity |].
  split; [rewrite add_item_splits, Hsecond; reflexivity |].
  rewrite Hstore. unfold store_item at 1 2. cbn [items total_money].
  rewrite (find_if_first_match _ n (length (items inv)) (mkItem n q1 p1)).
  - cbn [items total_money]. split; [| reflexivity].
    unfold get_quantity, int_add. cbn [quantity set_quantity name price].
    rewrite wrap_in_range by (unfold int_min, int_max in *; lia).
    rewrite (insert_app_r_alt (items inv) [mkItem n q1 p1]) by reflexivity.
    now rewrite Nat.sub_diag.
  - apply list_lookup_middle. reflexivity.
  - reflexivity.
  - intros j item' Hj Hlook. rewrite lookup_app_l in Hlook by exact Hj.
    apply list_elem_of_lookup_2 in Hlook. now apply Hnew.
Qed.

(** X9.  [sell_item] sells nothing when there is nothing to sell: on an
    empty inventory it prints its message and returns without reading any
    input; with a name that no entry bears it returns the inventory as it
    was. *)
Theorem sell_item_nothing_to_sell (fuel : nat) (inv : Inventory) (c : console S) :
  (items inv = [] ->
     sell_item fuel inv c =
     Some (inv, mkConsole (cin c)
                  (cout c ++ [OutStr "\nInventory is empty. Nothing to sell."; OutEndl]))) /\
  ((forall item, item ∈ items inv ->
      name item <> fst (getline (ignore_line (cin c)))) ->
   exists c', sell_item fuel inv c = Some (inv, c')).
Proof.
  split.
  - intros Hempty. unfold sell_item. rewrite Hempty. io_step.
    now rewrite <- app_assoc.
  - intros Hnone.
    destruct (decide (items inv = [])) as [Hempty | Hne].
    + unfold sell_item. rewrite Hempty. io_step. now eexists.
    + rewrite (sell_item_nonempty _ _ _ Hne). io_step.
      unfold cin_getline. cbn [cin cout].
      destruct (getline (ignore_line (cin c))) as [n i]. cbn [fst] in Hnone.
      rewrite (find_if_no_match _ _ Hnone). io_step. now eexists.
Qed.

(** *** What is printed *)

Lemma cin_int_cout (c c1 : console S) (r : option Z) :
  cin_int c = Some (r, c1) -> cout c1 = cout c.
Proof.
  unfold cin_int. destruct (extract_int (cin c)) as [r0 i].
  intros Heq. now injection Heq as _ <-.
Qed.

Lemma cin_float_cout (c c1 : console S) (r : option Float32.float) :
  cin_float c = Some (r, c1) -> cout c1 = cout c.
Proof.
  unfold cin_float. destruct (extract_float (cin c)) as [r0 i].
  intros Heq. now injection Heq as _ <-.
Qed.

Lemma read_quantity_output (fuel : nat) :
  forall (c c' : console S) (q : Z),
    read_quantity fuel c = Some (q, c') ->
    exists k, (k < fuel)%nat /\
      cout c' = cout c ++
        replicate k (OutStr "Invalid quantity. Please enter a positive number: ").
Proof.
  induction fuel as [| fuel IH]; intros c c' q Hrun; [discriminate |].
  rewrite read_quantity_unfold in Hrun.
  destruct (cin_int c) as [[r c1] |] eqn:Hread; [| discriminate].
  apply cin_int_cout in Hread.
  assert (Hagain : forall c0, cout c0 = cout c1 ++
              [OutStr "Invalid quantity. Please enter a positive number: "] ->
            read_quantity fuel c0 = Some (q, c') ->
            exists k, (k < Datatypes.S fuel)%nat /\
              cout c' = cout c ++
                replicate k (OutStr "Invalid quantity. Please enter a positive number: ")).
  { intros c0 Hout Hrun0. apply IH in Hrun0 as (k & Hk & Hcout).
    exists (Datatypes.S k). split; [lia |].
    rewrite Hcout, Hout, Hread, <- app_assoc. reflexivity. }
  destruct r as [z |].
  - destruct (z <=? 0).
    + apply (fun Hout => Hagain _ Hout Hrun). reflexivity.
    + injection Hrun as _ <-. exists 0%nat. split; [lia |].
      rewrite Hread. cbn [replicate]. now rewrite app_nil_r.
  - apply (fun Hout => Hagain _ Hout Hrun). reflexivity.
Qed.

Lemma read_price_output (fuel : nat) :
  forall (c c' : console S) (p : Float32.float),
    read_price fuel c = Some (p, c') ->
    exists k, (k < fuel)%nat /\
      cout c' = cout c ++
        replicate k (OutStr "Invalid price. Please enter a non-negative number: ").
Proof.
  induction fuel as [| fuel IH]; intros c c' p Hrun; [discriminate |].
  rewrite read_price_unfold in Hrun.
  destruct (cin_float c) as [[r c1] |] eqn:Hread; [| discriminate].
  apply cin_float_cout in Hread.
  assert (Hagain : forall c0, cout c0 = cout c1 ++
              [OutStr "Invalid price. Please enter a non-negative number: "] ->
            read_price fuel c0 = Some (p, c') ->
            exists k, (k < Datatypes.S fuel)%nat /\
              cout c' = cout c ++
                replicate k (OutStr "Invalid price. Please enter a non-negative number: ")).
  { intros c0 Hout Hrun0. apply IH in Hrun0 as (k & Hk & Hcout).
    exists (Datatypes.S k). split; [lia |].
    rewrite Hcout, Hout, Hread, <- app_assoc. reflexivity. }
  destruct r as [x |].
  - destruct (Float32.ltb x (Float32.of_int 0)).
    + apply (fun Hout => Hagain _ Hout Hrun). reflexivity.
    + injection Hrun as _ <-. exists 0%nat. split; [lia |].
      rewrite Hread. cbn [replicate]. now rewrite app_nil_r.
  - apply (fun Hout => Hagain _ Hout Hrun). reflexivity.
Qed.

Lemma add_item_prompts_output (fuel : nat) (c c1 : console S)
    (n : string) (q : Z) (p : Float32.float) :
  add_item_prompts fuel c = Some ((n, q, p), c1) ->
  exists k1 k2 : nat,
    cout c1 =
      cout c ++ [OutStr "\nEnter item name: "; OutStr "Enter quantity: "]
        ++ replicate k1 (OutStr "Invalid quantity. Please enter a positive number: ")
        ++ [OutStr "Enter price: "]
        ++ replicate k2 (OutStr "Invalid price. Please enter a non-negative number: ").
Proof.
  unfold add_item_prompts. io_step. unfold cin_getline. cbn [cin cout].
  destruct (getline (ignore_line (cin c))) as [n0 i]. io_step.
  match goal with |- context [read_quantity fuel ?c0] =>
    destruct (read_quantity fuel c0) as [[q0 cq] |] eqn:Hq; [| discriminate] end.
  io_step.
  match goal with |- context [read_price fuel ?c0] =>
    destruct (read_price fuel c0) as [[p0 cp] |] eqn:Hp; [| discriminate] end.
  intros Heq. injection Heq as _ _ _ <-.
  apply read_quantity_output in Hq as (k1 & _ & Hout1).
  apply read_price_output in Hp as (k2 & _ & Hout2).
  exists k1, k2.
  rewrite Hout2. cbn [cout]. rewrite Hout1. cbn [cout].
  rewrite <- !app_assoc. reflexivity.
Qed.

(** X10.  All that [add_item] prints is: its two first prompts, the quantity
    complaint some number of times (once per rejected reply), the price
    prompt, the price complaint some number of times, and the closing line
    that says whether the entered name was merged or added. *)
Theorem add_item_output (fuel : nat) (inv inv' : Inventory) (c c' : console S) :
  add_item fuel inv c = Some (inv', c') ->
  exists k1 k2 : nat,
    cout c' =
      cout c ++ [OutStr "\nEnter item name: "; OutStr "Enter quantity: "]
        ++ replicate k1 (OutStr "Invalid quantity. Please enter a positive number: ")
        ++ [OutStr "Enter price: "]
        ++ replicate k2 (OutStr "Invalid price. Please enter a non-negative number: ")
        ++ store_item_report (fst (getline (ignore_line (cin c)))) inv.
Proof.
  rewrite add_item_splits.
  destruct (add_item_prompts fuel c) as [[[[n q] p] c1] |] eqn:Hprompts;
    [| discriminate].
  intros Heq. injection Heq as _ <-.
  destruct (add_item_prompts_sound _ _ _ _ _ _ Hprompts) as (<- & _).
  apply add_item_prompts_output in Hprompts as (k1 & k2 & Hout).
  exists k1, k2. cbn [cout]. rewrite Hout. rewrite <- !app_assoc. reflexivity.
Qed.

Lemma list_items_loop_run (l : list Item) :
  forall c : console S,
    exists out,
      list_items_loop l c = Some (tt, mkConsole (cin c) (cout c ++ out)) /\
      shown_ints out = quantity <$> l /\
      shown_floats out = price <$> l.
Proof.
  induction l as [| item l IH]; intros c.
  - exists []. cbn [list_items_loop]. unfold mret, io_ret.
    rewrite app_nil_r. destruct c. repeat split.
  - cbn [list_items_loop]. unfold display_data. io_step.
    match goal with |- context [list_items_loop l ?c0] =>
      destruct (IH c0) as (out & Hrun & Hints & Hfloats) end.
    exists ([OutStr "\nItem name: "; OutStr (get_name item);
             OutStr "\nQuantity: "; OutInt (get_quantity item);
             OutStr "\nPrice: "; OutFloat (get_price item); OutStr "\n"] ++ out).
    split.
    + rewrite Hrun. cbn [cin cout]. rewrite <- !app_assoc. reflexivity.
    + unfold shown_ints, shown_floats in *. cbn. rewrite Hints, Hfloats.
      split; reflexivity.
Qed.

(** X11.  [list_items] reads no input and always returns.  What it prints
    shows the quantity of every entry, once and in the order of the
    entries, and no other [int]; the [float]s it shows are the prices of
    the entries in that order, followed by [total_money] if there is an
    entry.  For an empty inventory it prints the one line saying so. *)
Theorem list_items_shows_entries (inv : Inventory) (c : console S) :
  exists out,
    list_items inv c = Some (tt, mkConsole (cin c) (cout c ++ out)) /\
    shown_ints out = quantity <$> items inv /\
    (items inv <> [] ->
       shown_floats out = (price <$> items inv) ++ [total_money inv]) /\
    (items inv = [] -> out = [OutStr "\nInventory empty."; OutEndl]).
Proof.
  unfold list_items. destruct (items inv) as [| item0 rest] eqn:Hitems.
  - exists [OutStr "\nInventory empty."; OutEndl]. io_step.
    unfold print. cbn [cin cout]. rewrite <- app_assoc. repeat split. intros Hne. contradiction.
  - io_step.
    match goal with |- context [list_items_loop (item0 :: rest) ?c0] =>
      destruct (list_items_loop_run (item0 :: rest) c0)
        as (out & Hrun & Hints & Hfloats) end.
    exists ([OutStr "\n--- Current Inventory ---"; OutEndl] ++ out ++
            [OutStr "Total Money: "; OutFloat (total_money inv); OutEndl;
             OutStr "-------------------------"; OutEndl]).
    split.
    + rewrite Hrun. io_step. unfold print. cbn [cin cout].
      rewrite <- !app_assoc. reflexivity.
    + unfold shown_ints, shown_floats in *. rewrite !omap_app.
      rewrite Hints, Hfloats. cbn. rewrite app_nil_r.
      repeat split. intros Hempty. discriminate Hempty.
Qed.

(** *** The menu loop *)

(** One turn of the menu: the loop goes on after a call of [add_item] or of
    [sell_item], or with the inventory as it is (after [list_items] and
    after a choice that is none of 1 to 4), or it ends with the inventory
    as it is (choice 4). *)
Lemma menu_loop_turn (choice_after_failure : S -> Z -> Z) (rounds fuel : nat)
    (choice : Z) (inv inv' : Inventory) (c c' : console S) :
  menu_loop choice_after_failure (Datatypes.S rounds) fuel choice inv c = Some (inv', c') ->
  (exists inv1 c1 c2 v,
     (add_item fuel inv c1 = Some (inv1, c2) \/ sell_item fuel inv c1 = Some (inv1, c2)) /\
     menu_loop choice_after_failure rounds fuel v inv1 c2 = Some (inv', c')) \/
  (exists c2 v, menu_loop choice_after_failure rounds fuel v inv c2 = Some (inv', c')) \/
  inv' = inv.
Proof.
  cbn [menu_loop]. io_step. unfold cin_choice. cbn [cin cout].
  destruct (extract_int (cin c)) as [r i].
  set (v := match r with
            | Some z => if in_int z then z else choice_after_failure (cin c) choice
            | None => choice_after_failure (cin c) choice
            end).
  clearbody v. intros Hrun.
  destruct v as [| [[p | p |] | [p | [p | p |] |] |] | p];
    cbv beta iota in Hrun; io_step_in Hrun;
    first
      [ injection Hrun as <- _; right; right; reflexivity
      | match type of Hrun with context [add_item ?f ?i0 ?c0] =>
          destruct (add_item f i0 c0) as [[inv1 c2] |] eqn:Hcall; [| discriminate];
          left; exists inv1, c0, c2; eexists; split; [left; exact Hcall | exact Hrun]
        end
      | match type of Hrun with context [sell_item ?f ?i0 ?c0] =>
          destruct (sell_item f i0 c0) as [[inv1 c2] |] eqn:Hcall; [| discriminate];
          left; exists inv1, c0, c2; eexists; split; [right; exact Hcall | exact Hrun]
        end
      | match type of Hrun with context [list_items ?i0 ?c0] =>
          destruct (list_items i0 c0) as [[u c2] |]; [| discriminate];
          right; left; exists c2; eexists; exact Hrun
        end
      | right; left; eexists; eexists; exact Hrun ].
Qed.

(** X12.  Over a whole session of the menu, whatever is typed, the
    inventory never comes to hold two entries of one name, a price below
    zero, or a quantity that is no [int]: if it is so at the start of the
    loop, it is so when the loop ends; and it is so at the start, [main]
    beginning with the empty inventory. *)
Theorem menu_loop_keeps_inventory_sound (choice_after_failure : S -> Z -> Z)
    (rounds fuel : nat) :
  forall (choice : Z) (inv inv' : Inventory) (c c' : console S),
    menu_loop choice_after_failure rounds fuel choice inv c = Some (inv', c') ->
    unique_names inv /\ prices_not_negative inv /\ quantities_are_ints inv ->
    unique_names inv' /\ prices_not_negative inv' /\ quantities_are_ints inv'.
Proof.
  induction rounds as [| rounds IH]; intros choice inv inv' c c' Hrun Hinv;
    [discriminate |].
  apply menu_loop_turn in Hrun
    as [(inv1 & c1 & c2 & v & Hcall & Hrest) | [(c2 & v & Hrest) | ->]].
  - apply (IH _ _ _ _ _ Hrest).
    destruct Hinv as (Hnames & Hprices & Hints).
    destruct Hcall as [Hadd | Hsell].
    + apply add_item_cases in Hadd as (n & q & p & c0 & Hprompts & ->).
      destruct (add_item_prompts_sound _ _ _ _ _ _ Hprompts) as (_ & _ & Hq & Hp).
      split; [now apply unique_names_store_item |].
      split; [now apply prices_store_item | now apply store_item_ints].
    + apply sell_item_cases in Hsell as [-> | (it & item & q & Hit & _ & _ & ->)];
        [tauto |].
      split.
      { unfold unique_names in *.
        destruct (names_sell_units it item q inv Hit) as [-> | ->]; [exact Hnames |].
        apply (sublist_NoDup _ (names inv)); [exact Hnames | apply sublist_delete]. }
      split; [now apply prices_sell_units | now apply sell_units_ints].
  - now apply (IH _ _ _ _ _ Hrest).
  - exact Hinv.
Qed.

End Runs.

(** *** Runs on the scripted console *)

Lemma armoury_unique_names : unique_names armoury.
Proof.
  unfold unique_names, names, armoury. cbn.
  apply NoDup_cons. split.
  - intros Hin. apply list_elem_of_singleton in Hin. discriminate Hin.
  - apply NoDup_singleton.
Qed.

Lemma armoury_prices : prices_not_negative armoury.
Proof. unfold prices_not_negative, armoury. cbn [items]. repeat constructor. Qed.

Lemma armoury_quantities :
  quantities_are_ints armoury /\ quantities_positive armoury.
Proof.
  unfold quantities_are_ints, quantities_positive, armoury. cbn [items].
  split; repeat constructor.
Qed.

(** "Bow" is new to the armoury and ends up last. *)
Lemma add_item_names_witness :
  exists inv' c',
    add_item 3 armoury (mkConsole [Line "Bow"; Number 2; Number 9] []) = Some (inv', c') /\
    names inv' = ["Sword"%string; "Shield"%string; "Bow"%string] /\
    unique_names inv'.
Proof.
  destruct (add_item 3 armoury (mkConsole [Line "Bow"; Number 2; Number 9] []))
    as [[inv' c'] |] eqn:Hrun; [| vm_compute in Hrun; discriminate Hrun].
  exists inv', c'. split; [reflexivity |].
  destruct (add_item_names (S:=list reply) 3 armoury inv' _ c' Hrun) as [Hnames Hunique].
  split; [| exact (Hunique armoury_unique_names)].
  destruct Hnames as [[Hin _] | [_ ->]]; [| reflexivity].
  exfalso. cbn in Hin.
  apply elem_of_cons in Hin as [Heq | Hin]; [discriminate Heq |].
  apply list_elem_of_singleton in Hin. discriminate Hin.
Defined.

(** All 10 swords are sold: "Shield" is the one name left. *)
Lemma sell_item_names_witness :
  exists inv' c',
    sell_item 2 armoury (mkConsole [Line "Sword"; Number 10] []) = Some (inv', c') /\
    (names inv' `sublist_of` ["Sword"%string; "Shield"%string]) /\
    unique_names inv'.
Proof.
  destruct (sell_item 2 armoury (mkConsole [Line "Sword"; Number 10] []))
    as [[inv' c'] |] eqn:Hrun; [| vm_compute in Hrun; discriminate Hrun].
  exists inv', c'. split; [reflexivity |].
  destruct (sell_item_names (S:=list reply) 2 armoury inv' _ c' Hrun)
    as (Hsub & _ & Hunique).
  split; [exact Hsub | exact (Hunique armoury_unique_names)].
Defined.

(** A price of -1 is refused and 9 taken: no price below zero is stored. *)
Lemma prices_stay_not_negative_witness :
  exists inv' c',
    add_item 3 armoury
      (mkConsole [Line "Bow"; Number 2; Number (-1); Number 9] []) = Some (inv', c') /\
    prices_not_negative inv'.
Proof.
  destruct (add_item 3 armoury
              (mkConsole [Line "Bow"; Number 2; Number (-1); Number 9] []))
    as [[inv' c'] |] eqn:Hrun; [| vm_compute in Hrun; discriminate Hrun].
  exists inv', c'. split; [reflexivity |].
  exact (prices_stay_not_negative (S:=list reply) 3 armoury inv' _ c'
           (or_introl Hrun) armoury_prices).
Defined.

(** One shield out of 3 is sold: every quantity left is positive. *)
Lemma sell_item_keeps_positive_witness :
  exists inv' c',
    sell_item 2 armoury (mkConsole [Line "Shield"; Number 1] []) = Some (inv', c') /\
    quantities_positive inv'.
Proof.
  destruct (sell_item 2 armoury (mkConsole [Line "Shield"; Number 1] []))
    as [[inv' c'] |] eqn:Hrun; [| vm_compute in Hrun; discriminate Hrun].
  exists inv', c'. split; [reflexivity |].
  exact (sell_item_keeps_positive (S:=list reply) 2 armoury inv' _ c' Hrun
           (proj1 armoury_quantities) (proj2 armoury_quantities)).
Defined.


(** Two bows are added to the armoury and sold at once. *)
Lemma add_then_sell_all_witness :
  exists inv1 c2 inv2 d2,
    add_item 2 armoury (mkConsole [Line "Bow"; Number 2; Number 9] []) = Some (inv1, c2) /\
    sell_item 2 inv1 (mkConsole [Line "Bow"; Number 2] []) = Some (inv2, d2) /\
    items inv2 = items armoury.
Proof.
  edestruct (add_then_sell_all (S:=list reply) 2 armoury
               (mkConsole [Line "Bow"; Number 2; Number 9] []))
    with (d := mkConsole [Line "Bow"; Number 2] [])
    as (inv1 & c2 & inv2 & d2 & Hadd & Hsell & Hitems & _).
  { vm_compute. reflexivity. }
  { intros item Hin. unfold armoury in Hin. cbn [items] in Hin.
    apply elem_of_cons in Hin as [-> | Hin]; [discriminate |].
    apply list_elem_of_singleton in Hin. subst item. discriminate. }
  { reflexivity. }
  { vm_compute. reflexivity. }
  exists inv1, c2, inv2, d2. split; [exact Hadd |]. split; [exact Hsell | exact Hitems].
Defined.

(** Two bows at 9, then three more entered at 1: five bows at 9. *)
Lemma add_item_twice_witness :
  exists inv1 c2 inv2 d2,
    add_item 2 armoury (mkConsole [Line "Bow"; Number 2; Number 9] []) = Some (inv1, c2) /\
    add_item 2 inv1 (mkConsole [Line "Bow"; Number 3; Number 1] []) = Some (inv2, d2) /\
    items inv2 = items armoury ++ [mkItem "Bow" 5 (Float32.of_int 9)].
Proof.
  edestruct (add_item_twice (S:=list reply) 2 armoury
               (mkConsole [Line "Bow"; Number 2; Number 9] []))
    with (d := mkConsole [Line "Bow"; Number 3; Number 1] [])
    as (inv1 & c2 & inv2 & d2 & Hadd & Hagain & Hitems & _).
  { vm_compute. reflexivity. }
  { vm_compute. reflexivity. }
  { intros item Hin. unfold armoury in Hin. cbn [items] in Hin.
    apply elem_of_cons in Hin as [-> | Hin]; [discriminate |].
    apply list_elem_of_singleton in Hin. subst item. discriminate. }
  { vm_compute. discriminate. }
  exists inv1, c2, inv2, d2. split; [exact Hadd |]. split; [exact Hagain | exact Hitems].
Defined.

(** Selling from the empty inventory leaves the pending input alone. *)
Lemma sell_item_nothing_to_sell_witness :
  sell_item 2 Inventory_new (mkConsole [Number 3; Line "Bow"] []) =
  Some (Inventory_new,
        mkConsole [Number 3; Line "Bow"]
          [OutStr "\nInventory is empty. Nothing to sell."; OutEndl]).
Proof.
  exact (proj1 (sell_item_nothing_to_sell (S:=list reply) 2 Inventory_new
                  (mkConsole [Number 3; Line "Bow"] [])) eq_refl).
Defined.

(** Two refused quantities and one refused price before two bows at 9 are
    added. *)
Lemma add_item_output_witness :
  exists inv' c' k1 k2,
    add_item 3 armoury
      (mkConsole [Line "Bow"; Garbage; Number 0; Number 2; Number (-1); Number 9] [])
      = Some (inv', c') /\
    cout c' =
      [] ++ [OutStr "\nEnter item name: "; OutStr "Enter quantity: "]
        ++ replicate k1 (OutStr "Invalid quantity. Please enter a positive number: ")
        ++ [OutStr "Enter price: "]
        ++ replicate k2 (OutStr "Invalid price. Please enter a non-negative number: ")
        ++ [OutStr "\nNew item '"; OutStr "Bow"; OutStr "' added to inventory."; OutEndl].
Proof.
  destruct (add_item 3 armoury
              (mkConsole [Line "Bow"; Garbage; Number 0; Number 2; Number (-1); Number 9] []))
    as [[inv' c'] |] eqn:Hrun; [| vm_compute in Hrun; discriminate Hrun].
  destruct (add_item_output (S:=list reply) _ _ _ _ _ Hrun) as (k1 & k2 & Hout).
  exists inv', c', k1, k2. split; [reflexivity | exact Hout].
Defined.

(** Two swords on top of 10: the sword keeps its place, name and price, the
    shield is as it was, and so is the money. *)
Lemma add_item_frame_witness :
  exists inv' c',
    add_item 2 armoury (mkConsole [Line "Sword"; Number 2; Number 99] []) = Some (inv', c') /\
    total_money inv' = total_money armoury /\
    (exists item', items inv' !! 0%nat = Some item' /\
                   name item' = "Sword"%string /\ price item' = Float32.of_int 5).
Proof.
  destruct (add_item 2 armoury (mkConsole [Line "Sword"; Number 2; Number 99] []))
    as [[inv' c'] |] eqn:Hrun; [| vm_compute in Hrun; discriminate Hrun].
  exists inv', c'. split; [reflexivity |].
  destruct (add_item_frame (S:=list reply) _ _ _ _ _ Hrun) as (Hmoney & _ & Hkept).
  split; [exact Hmoney |].
  exact (Hkept 0%nat (mkItem "Sword" 10 (Float32.of_int 5)) eq_refl).
Defined.

(** The armoury is listed: 10 and 3 are the quantities shown. *)
Lemma list_items_shows_entries_witness :
  exists out,
    list_items armoury (mkConsole [Number 4] []) =
      Some (tt, mkConsole [Number 4] ([] ++ out)) /\
    shown_ints out = [10; 3].
Proof.
  destruct (list_items_shows_entries (S:=list reply) armoury (mkConsole [Number 4] []))
    as (out & Hrun & Hints & _).
  exists out. split; [exact Hrun | exact Hints].
Defined.

(** A session: two swords are added, 7 is no choice, one sword is sold, the
    inventory is listed, and 4 ends the loop. *)
Lemma menu_loop_keeps_inventory_sound_witness :
  exists inv' c',
    menu_loop (fun _ _ => 0) 5 3 0 Inventory_new
      (mkConsole [Number 1; Line "Sword"; Number 2; Number 5; Number 7;
                  Number 2; Line "Sword"; Number 1; Number 3; Number 4] [])
      = Some (inv', c') /\
    unique_names inv' /\ prices_not_negative inv' /\ quantities_are_ints inv'.
Proof.
  destruct (menu_loop (fun _ _ => 0) 5 3 0 Inventory_new
              (mkConsole [Number 1; Line "Sword"; Number 2; Number 5; Number 7;
                          Number 2; Line "Sword"; Number 1; Number 3; Number 4] []))
    as [[inv' c'] |] eqn:Hrun; [| vm_compute in Hrun; discriminate Hrun].
  exists inv', c'. split; [reflexivity |].
  apply (menu_loop_keeps_inventory_sound (S:=list reply) _ _ _ _ _ _ _ _ Hrun).
  split; [apply NoDup_nil_2 |]. split; [constructor | apply Inventory_new_ints].
Defined.

End SessionFacts.
